(** * heka-s3: the S3 output plugin (s3_output.go)

    A shallow embedding of the buffering / spill / upload code of the plugin,
    and the properties of its specification that can be settled on it.

    Conventions of the embedding:
    - byte payloads are [list byte]; Go strings (paths, keys, layouts) are
      [string];
    - Go [int] values are [Z] (no arithmetic of the program comes near the
      64-bit bounds: the only int arithmetic is a comparison of a length);
    - instants are nanoseconds since the Unix epoch, in [Z];
    - a [*bytes.Buffer] is [option bytes]: [None] is the nil pointer;
    - every function that touches the outside world is a state transformer
      over [State], returning a [result]; a run-time panic is a result of its
      own;
    - what the outside decides during a call (which system call fails, what
      the clock shows) is the [Env] the call is given. *)

From Stdlib Require Import ZArith List String Ascii Bool Lia.
From Stdlib.Strings Require Import Byte.
From Stdlib Require Import DecimalString.
Import ListNotations.

Local Open Scope string_scope.
Local Open Scope Z_scope.
Local Open Scope list_scope.

(** Concatenation of Go strings ([++] is kept for byte sequences). *)
Infix "+++" := String.append (right associativity, at level 60).

Definition bytes := list byte.

(* ================================================================= *)
(** ** Package [strings]: Split and Join *)

(** [strings.Split(s, sep)] for a one-byte separator: the pieces of [s]
    between the occurrences of [sep]; never the empty list. *)
Fixpoint Split (s : string) (sep : ascii) : list string :=
  match s with
  | EmptyString => [EmptyString]
  | String c rest =>
      if Ascii.eqb c sep then EmptyString :: Split rest sep
      else match Split rest sep with
           | [] => [String c EmptyString]
           | piece :: pieces => String c piece :: pieces
           end
  end.

(** [strings.Join(elems, sep)]. *)
Fixpoint Join (elems : list string) (sep : string) : string :=
  match elems with
  | [] => EmptyString
  | [e] => e
  | e :: rest => e +++ sep +++ Join rest sep
  end.

(** Every occurrence of [old] replaced by [new]. *)
Fixpoint replace_char (old new : ascii) (s : string) : string :=
  match s with
  | EmptyString => EmptyString
  | String c rest =>
      String (if Ascii.eqb c old then new else c) (replace_char old new rest)
  end.

Fixpoint contains_char (c : ascii) (s : string) : bool :=
  match s with
  | EmptyString => false
  | String d rest => Ascii.eqb d c || contains_char c rest
  end.

(* ================================================================= *)
(** ** Package [time] *)

Module GoTime.

Definition Duration := Z.
Definition Nanosecond : Duration := 1.
Definition Second : Duration := 1000000000.
Definition Hour : Duration := 3600 * Second.
Definition nsPerDay : Z := 86400 * Second.

Inductive Location := UTCLoc | LocalLoc.

(** A [time.Time]: an instant and the location it is presented in. *)
Record Time := mkTime { unixNano : Z; loc : Location }.

(** Days since 1970-01-01 of a proleptic Gregorian date; [m] in 1..12, any
    [d] (day 0 is the last day of the month before, as [time.Date]
    normalises it). *)
Definition days_from_civil (y m d : Z) : Z :=
  let y := if m <=? 2 then y - 1 else y in
  let era := y / 400 in
  let yoe := y - era * 400 in
  let mp := if 2 <? m then m - 3 else m + 9 in
  let doy := (153 * mp + 2) / 5 + d - 1 in
  let doe := yoe * 365 + yoe / 4 - yoe / 100 + doy in
  era * 146097 + doe - 719468.

(** Year, month, day of a day number. *)
Definition civil_from_days (z : Z) : Z * Z * Z :=
  let z := z + 719468 in
  let era := z / 146097 in
  let doe := z - era * 146097 in
  let yoe := (doe - doe / 1460 + doe / 36524 - doe / 146096) / 365 in
  let y := yoe + era * 400 in
  let doy := doe - (365 * yoe + yoe / 4 - yoe / 100) in
  let mp := (5 * doy + 2) / 153 in
  let d := doy - (153 * mp + 2) / 5 + 1 in
  let m := if mp <? 10 then mp + 3 else mp - 9 in
  (if m <=? 2 then y + 1 else y, m, d).

Section Zone.

(** The zone database of the process: the offset of local time, in seconds
    east of UTC, in force at an instant. *)
Variable local_offset : Z -> Z.

Definition offset_of (t : Time) : Z :=
  match loc t with
  | UTCLoc => 0
  | LocalLoc => local_offset (unixNano t)
  end.

(** Nanoseconds since the epoch of the wall clock shown by [t]. *)
Definition wall (t : Time) : Z := unixNano t + offset_of t * Second.

Definition UTC (t : Time) : Time := mkTime (unixNano t) UTCLoc.
Definition Local (t : Time) : Time := mkTime (unixNano t) LocalLoc.

Definition date_of (t : Time) : Z * Z * Z := civil_from_days (wall t / nsPerDay).
Definition Year (t : Time) : Z := fst (fst (date_of t)).
Definition Month (t : Time) : Z := snd (fst (date_of t)).
Definition Day (t : Time) : Z := snd (date_of t).
Definition Hour_of (t : Time) : Z := (wall t mod nsPerDay) / Hour.
Definition Minute_of (t : Time) : Z := ((wall t mod nsPerDay) mod Hour) / (60 * Second).
Definition Second_of (t : Time) : Z := ((wall t mod nsPerDay) mod (60 * Second)) / Second.
Definition Nanosecond_of (t : Time) : Z := wall t mod Second.

(** [time.Date(year, month, day, hour, min, sec, nsec, time.UTC)]. Out of
    range months are carried into the year; the other fields enter the sum
    with their weight, which is what the carries of [time.Date] amount to. *)
Definition Date (year month day hour min sec nsec : Z) : Time :=
  let m0 := month - 1 in
  let year := year + m0 / 12 in
  let month := m0 mod 12 + 1 in
  let days := days_from_civil year month day in
  mkTime (((days * 24 + hour) * 60 + min) * 60 * Second + sec * Second + nsec) UTCLoc.

(** [t.AddDate(years, months, days)], for a time presented in UTC. *)
Definition AddDate (t : Time) (years months days : Z) : Time :=
  Date (Year t + years) (Month t + months) (Day t + days)
       (Hour_of t) (Minute_of t) (Second_of t) (Nanosecond_of t).

Definition Add (t : Time) (d : Duration) : Time := mkTime (unixNano t + d) (loc t).
Definition Sub (t u : Time) : Duration := unixNano t - unixNano u.
Definition After (t u : Time) : bool := unixNano u <? unixNano t.

(** *** Formatting *)

(** The layout elements that can occur in a layout made of digits and
    punctuation (the program's layouts are "2006-01-02_150405" and
    "2006-01-02"). *)
Inductive Std :=
| stdLongYear | stdYear | stdZeroMonth | stdNumMonth | stdZeroDay | stdUnderDay
| stdDay | stdHour | stdZeroHour12 | stdHour12 | stdZeroMinute | stdMinute
| stdZeroSecond | stdSecond.

Fixpoint drop (n : nat) (s : string) : string :=
  match n, s with
  | O, _ => s
  | S n', String _ rest => drop n' rest
  | S _, EmptyString => EmptyString
  end.

(** The layout element that starts at the head of [layout], with its
    length: the cases of [nextStdChunk] for the bytes '0'..'5' and '_', but
    for the day of the year (002, __2). Names of months and days, zones and
    fractions of a second are left out: the layouts of the program hold
    none, and their other bytes stand for themselves. *)
Definition stdChunkAt (layout : string) : option (Std * nat) :=
  if prefix "2006" layout then Some (stdLongYear, 4%nat)
  else if prefix "01" layout then Some (stdZeroMonth, 2%nat)
  else if prefix "02" layout then Some (stdZeroDay, 2%nat)
  else if prefix "03" layout then Some (stdZeroHour12, 2%nat)
  else if prefix "04" layout then Some (stdZeroMinute, 2%nat)
  else if prefix "05" layout then Some (stdZeroSecond, 2%nat)
  else if prefix "06" layout then Some (stdYear, 2%nat)
  else if prefix "15" layout then Some (stdHour, 2%nat)
  else if prefix "1" layout then Some (stdNumMonth, 1%nat)
  else if prefix "_2006" layout then None
  else if prefix "_2" layout then Some (stdUnderDay, 2%nat)
  else if prefix "2" layout then Some (stdDay, 1%nat)
  else if prefix "3" layout then Some (stdHour12, 1%nat)
  else if prefix "4" layout then Some (stdMinute, 1%nat)
  else if prefix "5" layout then Some (stdSecond, 1%nat)
  else None.

(** [nextStdChunk]: the literal text before the next layout element, the
    element, and the rest of the layout. *)
Fixpoint nextStdChunk (layout : string) : string * option (Std * string) :=
  match layout with
  | EmptyString => (EmptyString, None)
  | String c rest =>
      match stdChunkAt layout with
      | Some (std, n) => (EmptyString, Some (std, drop n layout))
      | None =>
          let '(pre, found) := nextStdChunk rest in (String c pre, found)
      end
  end.

Fixpoint zeros (n : nat) : string :=
  match n with O => EmptyString | S n' => String "0" (zeros n') end.

(** [appendInt]: decimal, a sign for negatives, zero-padded to [width]. *)
Definition appendInt (x : Z) (width : nat) : string :=
  let digits := NilZero.string_of_uint (N.to_uint (Z.to_N (Z.abs x))) in
  (if x <? 0 then "-" else EmptyString)
    +++ zeros (width - String.length digits) +++ digits.

Definition appendStd (std : Std) (t : Time) : string :=
  match std with
  | stdLongYear => appendInt (Year t) 4
  | stdYear => appendInt (Z.abs (Year t) mod 100) 2
  | stdZeroMonth => appendInt (Month t) 2
  | stdNumMonth => appendInt (Month t) 0
  | stdZeroDay => appendInt (Day t) 2
  | stdUnderDay => (if Day t <? 10 then " " else EmptyString) +++ appendInt (Day t) 0
  | stdDay => appendInt (Day t) 0
  | stdHour => appendInt (Hour_of t) 2
  | stdZeroHour12 =>
      appendInt (if Hour_of t mod 12 =? 0 then 12 else Hour_of t mod 12) 2
  | stdHour12 =>
      appendInt (if Hour_of t mod 12 =? 0 then 12 else Hour_of t mod 12) 0
  | stdZeroMinute => appendInt (Minute_of t) 2
  | stdMinute => appendInt (Minute_of t) 0
  | stdZeroSecond => appendInt (Second_of t) 2
  | stdSecond => appendInt (Second_of t) 0
  end.

Fixpoint format_loop (fuel : nat) (t : Time) (layout : string) : string :=
  match fuel with
  | O => EmptyString
  | S fuel' =>
      match nextStdChunk layout with
      | (pre, None) => pre
      | (pre, Some (std, suffix)) =>
          pre +++ appendStd std t +++ format_loop fuel' t suffix
      end
  end.

(** [t.Format(layout)]. Each round of the loop consumes at least one byte of
    the layout, so its length (plus one for the last, empty round) is fuel
    enough. *)
Definition Format (t : Time) (layout : string) : string :=
  format_loop (S (String.length layout)) t layout.

End Zone.

End GoTime.

(* ================================================================= *)
(** ** Results, the state of the world and the environment of a call *)

Inductive error :=
| ErrAuth | ErrRegionNotFound
| ErrNothingToUpload
| ErrMkdirAll | ErrChdir | ErrCreate | ErrOpenFile | ErrWrite
| ErrOpen | ErrCopy
| ErrPut | ErrRemove.

(** What a call comes back with: a value, a Go [error], or a run-time panic
    (which unwinds through every caller: nothing in this file recovers). *)
Inductive result (A : Type) :=
| Ok (a : A)
| Err (e : error)
| Panic.
Arguments Ok {A} a.
Arguments Err {A} e.
Arguments Panic {A}.

(** The calls that act on the world, in the order they are made. *)
Inductive Event :=
| EvMkdirAll (path : string)
| EvChdir (path : string)
| EvCreate (path : string)
| EvWrite (path : string) (data : bytes)
| EvRemove (path : string)
| EvPut (key : string) (data : bytes) (contentType : string)
| EvLog (msg : string).

(** One object of the bucket. *)
Record Object := mkObject { obj_key : string; obj_data : bytes; obj_type : string }.

(** The file system is known by the names the program gives to its calls. A
    name stands for the same file from one call to the next: that is so of
    absolute paths, whatever the working directory, and the properties below
    that follow several calls in a row ask for absolute paths ([IsAbs]). A
    relative path is not resolved against [cwd]; within one call, a step that
    the system refuses for that reason is a step that fails in [Env]. *)
Record State := mkState {
  buffer : bytes;                   (* the bytes.Buffer that Run allocates and hands,
                                       by pointer, to WriteToBuffer, SaveToDisk, Upload *)
  dirs : string -> bool;            (* the directories that exist *)
  files : string -> option bytes;   (* the regular files that exist, with their contents *)
  others : string -> bool;          (* the paths at which os.Stat does not report a
                                       missing file although neither a regular file nor
                                       a directory of [dirs] is there: another kind of
                                       file, or a path it cannot look up (permission
                                       denied, a parent that is not a directory) *)
  cwd : string;                     (* the working directory of the process, as the
                                       last successful os.Chdir left it *)
  remote : list Object;             (* what the bucket holds, latest first *)
  trace : list Event                (* the calls made so far, latest last *)
}.

(** How the outside answers during one call of WriteToBuffer, SaveToDisk,
    ReadFromDisk or Upload: which system or network call fails (each is made
    at most once per call), and what the clock shows at its successive
    readings. A failed call leaves its target as it was, but for a write: a
    failed [Write] may have put the first [short_write] bytes of its data in
    the file (the count it returns with the error, which the program drops). *)
Record Env := mkEnv {
  mkdir_fails : bool;
  chdir_fails : bool;
  create_fails : bool;
  openfile_fails : bool;
  write_fails : bool;
  short_write : nat;
  open_fails : bool;
  copy_fails : bool;
  put_fails : bool;
  remove_fails : bool;
  now : nat -> Z                    (* wall clock, in ns, at the k-th time.Now() *)
}.

Definition M (A : Type) := State -> result A * State.

Definition ret {A} (a : A) : M A := fun s => (Ok a, s).

Definition bind {A B} (m : M A) (k : A -> M B) : M B :=
  fun s =>
    match m s with
    | (Ok a, s') => k a s'
    | (Err e, s') => (Err e, s')
    | (Panic, s') => (Panic, s')
    end.

Notation "x <- m ;; k" := (bind m (fun x => k))
  (at level 61, m at next level, right associativity).
Notation "m ;;; k" := (bind m (fun _ => k))
  (at level 61, right associativity).

Definition of_result {A} (r : result A) : M A := fun s => (r, s).

Definition emit (ev : Event) (s : State) : State :=
  mkState (buffer s) (dirs s) (files s) (others s) (cwd s) (remote s) (trace s ++ [ev]).

Definition set_buffer (b : bytes) (s : State) : State :=
  mkState b (dirs s) (files s) (others s) (cwd s) (remote s) (trace s).

Definition set_dir (path : string) (s : State) : State :=
  mkState (buffer s) (fun p => if String.eqb p path then true else dirs s p)
          (files s) (others s) (cwd s) (remote s) (trace s).

Definition set_file (path : string) (c : option bytes) (s : State) : State :=
  mkState (buffer s) (dirs s)
          (fun p => if String.eqb p path then c else files s p)
          (others s) (cwd s) (remote s) (trace s).

Definition set_cwd (path : string) (s : State) : State :=
  mkState (buffer s) (dirs s) (files s) (others s) path (remote s) (trace s).

Definition add_object (o : Object) (s : State) : State :=
  mkState (buffer s) (dirs s) (files s) (others s) (cwd s) (o :: remote s) (trace s).

(** [or.LogMessage(msg)]. *)
Definition LogMessage (msg : string) : M unit :=
  fun s => (Ok tt, emit (EvLog msg) s).

(** *** Package [os] *)

(** A path that names the same file whatever the working directory: it
    starts at the root. *)
Definition IsAbs (path : string) : bool :=
  match path with
  | EmptyString => false
  | String c _ => Ascii.eqb c "/"
  end.

Fixpoint only_slashes (path : string) : bool :=
  match path with
  | EmptyString => true
  | String c rest => Ascii.eqb c "/" && only_slashes rest
  end.

(** [path] and what is left of it when slashes are taken off its end (but
    for the empty string): to the system they are one name when they name a
    directory. *)
Fixpoint stems (path : string) : list string :=
  match path with
  | EmptyString => []
  | String c rest =>
      (if only_slashes rest then [String c EmptyString] else [])
      ++ map (String c) (stems rest)
  end.

(** [path] names one of the directories [ds], up to slashes at its end. *)
Definition names_dir (ds : string -> bool) (path : string) : bool :=
  existsb ds (stems path).
Arguments names_dir : simpl never.

(** [_, err := os.Stat(path); os.IsNotExist(err)] on the staging directory.
    The answer is read off [dirs]: a staging path that is taken by something
    else than a directory counts as missing, and the [os.MkdirAll] or the
    [os.Chdir] that follows is then one that fails. *)
Definition Stat_IsNotExist_dir (path : string) : M bool :=
  fun s => (Ok (negb (dirs s path)), s).

(** Whether [os.Stat(path)] fails with an error that [os.IsNotExist] takes:
    no regular file is at [path], [path] does not name a directory (as the
    spool path does when the bucket and the prefix are empty: it is then the
    staging path with a slash), nothing else is there, and the path can be
    looked up. [os.IsNotExist] turns down every other error of [os.Stat]. *)
Definition not_exist (s : State) (path : string) : bool :=
  match files s path with
  | Some _ => false
  | None => negb (names_dir (dirs s) path || others s path)
  end.

(** [_, err := os.Stat(path); os.IsNotExist(err)] on the spool path. *)
Definition Stat_IsNotExist (path : string) : M bool :=
  fun s => (Ok (not_exist s path), s).

Definition MkdirAll (e : Env) (path : string) : M unit :=
  fun s =>
    let s := emit (EvMkdirAll path) s in
    if mkdir_fails e then (Err ErrMkdirAll, s) else (Ok tt, set_dir path s).

(** [os.Chdir]. The new working directory is recorded in [cwd]; the paths
    handed to the calls that follow are looked up as they are written (see
    [State]). *)
Definition Chdir (e : Env) (path : string) : M unit :=
  fun s =>
    let s := emit (EvChdir path) s in
    if chdir_fails e || negb (dirs s path) then (Err ErrChdir, s)
    else (Ok tt, set_cwd path s).

(** [os.Create]: the file is created empty, or truncated. *)
Definition Create (e : Env) (path : string) : M unit :=
  fun s =>
    let s := emit (EvCreate path) s in
    if create_fails e then (Err ErrCreate, s) else (Ok tt, set_file path (Some []) s).

(** [os.OpenFile(path, os.O_APPEND|os.O_WRONLY, 0666)]: no O_CREATE, so the
    file must exist, and a directory does not open for writing. The handle is
    the path. *)
Definition OpenFile_append (e : Env) (path : string) : M string :=
  fun s =>
    match files s path with
    | None => (Err ErrOpenFile, s)
    | Some _ => if openfile_fails e then (Err ErrOpenFile, s) else (Ok path, s)
    end.

(** [_, err = f.Write(data)] on a handle opened for appending. *)
Definition File_Write (e : Env) (f : string) (data : bytes) : M unit :=
  fun s =>
    let s := emit (EvWrite f data) s in
    match files s f with
    | None => (Err ErrWrite, s)
    | Some old =>
        if write_fails e
        then (Err ErrWrite, set_file f (Some (old ++ firstn (short_write e) data)) s)
        else (Ok tt, set_file f (Some (old ++ data)) s)
    end.

(** [os.Open(path)]: the handle gives the contents to read. *)
Definition Open (e : Env) (path : string) : M bytes :=
  fun s =>
    match files s path with
    | None => (Err ErrOpen, s)
    | Some c => if open_fails e then (Err ErrOpen, s) else (Ok c, s)
    end.

Definition Remove (e : Env) (path : string) : M unit :=
  fun s =>
    let s := emit (EvRemove path) s in
    match files s path with
    | None => (Err ErrRemove, s)
    | Some _ =>
        if remove_fails e then (Err ErrRemove, s)
        else (Ok tt, set_file path None s)
    end.

(** *** Package [bytes]: the methods of [*bytes.Buffer] the program calls *)

(** On the buffer of Run, which is never nil. [Write] returns a nil error
    always. *)
Definition Buffer_Write (p : bytes) : M unit :=
  fun s => (Ok tt, set_buffer (buffer s ++ p) s).

Definition Buffer_Len : M Z :=
  fun s => (Ok (Z.of_nat (List.length (buffer s))), s).

Definition Buffer_Bytes : M bytes :=
  fun s => (Ok (buffer s), s).

Definition Buffer_Reset : M unit :=
  fun s => (Ok tt, set_buffer [] s).

(** On a buffer held in a local variable, which may be nil: every method
    that touches a field of the receiver panics on nil. *)
Definition ptr_Bytes (b : option bytes) : result bytes :=
  match b with
  | None => Panic
  | Some c => Ok c
  end.

(** [io.Copy(b, src)] with a [*bytes.Buffer] destination goes through
    [b.ReadFrom(src)], whose first statement writes a field of [b]. *)
Definition ptr_ReadFrom (b : option bytes) (src : bytes) (fails : bool)
  : result (option bytes) :=
  match b with
  | None => Panic
  | Some old => if fails then Err ErrCopy else Ok (Some (old ++ src))
  end.

(* ================================================================= *)
(** ** The plugin *)

Definition INTERVAL_PERIOD : GoTime.Duration := 24 * GoTime.Hour.
Definition HOUR_TO_TICK : Z := 0.
Definition MINUTE_TO_TICK : Z := 0.
Definition SECOND_TO_TICK : Z := 0.

Record S3OutputConfig := mkConfig {
  SecretKey : string;
  AccessKey : string;
  Region : string;
  Bucket : string;
  Prefix : string;
  TickerInterval : Z;
  Compression : bool;
  BufferPath : string;
  BufferChunkLimit : Z
}.

(** The client and bucket handles of the Go struct belong to the S3 library;
    the bucket they designate is [remote] in the state. *)
Record S3Output := mkS3Output {
  config : S3OutputConfig;
  bufferFilePath : string
}.

Definition ConfigStruct : S3OutputConfig :=
  mkConfig "" "" "" "" "" 0 true "" 1000000.

(** [Init]. [auth_ok] and [region_known] are the answers of [aws.GetAuth]
    and of the lookup in [aws.Regions]. *)
Definition Init (auth_ok region_known : bool) (cfg : S3OutputConfig)
  : result S3Output :=
  if negb auth_ok then Err ErrAuth
  else if negb region_known then Err ErrRegionNotFound
  else
    let prefixList := Split (Prefix cfg) "/" in
    let bufferFileName := Bucket cfg +++ Join prefixList "_" in
    Ok (mkS3Output cfg (BufferPath cfg +++ "/" +++ bufferFileName)).

Record Ticker := mkTicker { period : GoTime.Duration }.

(** [time.NewTicker(d)] panics on a non-positive [d]. *)
Definition NewTicker (d : GoTime.Duration) : result Ticker :=
  if d <=? 0 then Panic else Ok (mkTicker d).

Section Plugin.

(** The two library functions the model takes as given: [compress/gzip]'s
    encoding of a whole input, and the local time zone. *)
Variable gzip : bytes -> bytes.
Variable local_offset : Z -> Z.

(** [time.Now()] at its [k]-th call: the instant, presented in local time. *)
Definition Now (e : Env) (k : nat) : GoTime.Time :=
  GoTime.mkTime (now e k) GoTime.LocalLoc.

(** The instant [midnightTickerUpdate] aims at (its variable [nextTick] when
    the ticker is made). The clock is read once per argument, then once for
    the comparison. *)
Definition nextTick (e : Env) : GoTime.Time :=
  let nextTick :=
    GoTime.Date (GoTime.Year local_offset (GoTime.UTC (Now e 0)))
                (GoTime.Month local_offset (GoTime.UTC (Now e 1)))
                (GoTime.Day local_offset (GoTime.UTC (Now e 2)))
                HOUR_TO_TICK MINUTE_TO_TICK SECOND_TO_TICK 0 in
  if negb (GoTime.After nextTick (Now e 3))
  then GoTime.Add nextTick INTERVAL_PERIOD
  else nextTick.

Definition midnightTickerUpdate (e : Env) : result Ticker :=
  let diff := GoTime.Sub (nextTick e) (Now e 4) in
  NewTicker diff.

(** [SaveToDisk]: appends the contents of the buffer to the spool file and
    resets the buffer. *)
Definition SaveToDisk (so : S3Output) (e : Env) : M unit :=
  notExist <- Stat_IsNotExist_dir (BufferPath (config so)) ;;
  (if notExist : bool then MkdirAll e (BufferPath (config so)) else ret tt) ;;;
  Chdir e (BufferPath (config so)) ;;;
  notExist <- Stat_IsNotExist (bufferFilePath so) ;;
  (if notExist : bool
   then LogMessage ("Creating buffer file: " +++ bufferFilePath so) ;;;
        Create e (bufferFilePath so)
   else ret tt) ;;;
  f <- OpenFile_append e (bufferFilePath so) ;;
  data <- Buffer_Bytes ;;
  File_Write e f data ;;;
  Buffer_Reset.

(** [WriteToBuffer]: appends [outBytes] to the buffer and spills the buffer
    to disk when it exceeds the limit. *)
Definition WriteToBuffer (so : S3Output) (outBytes : bytes) (e : Env) : M unit :=
  Buffer_Write outBytes ;;;
  len <- Buffer_Len ;;
  if BufferChunkLimit (config so) <? len then SaveToDisk so e else ret tt.

(** A [gzip.Writer] over [dst], fed [src] by [io.Copy] and closed. The gzip
    header goes to [dst] at the first [Write], or at [Close] when nothing was
    written: both reach [dst.Write], which panics on a nil buffer. The error
    of a failed read is kept while [Close] still runs. *)
Definition gzip_copy_close (dst : option bytes) (src : bytes) (fails : bool)
  : result (option bytes) :=
  match dst with
  | None => Panic
  | Some old => if fails then Err ErrCopy else Ok (Some (old ++ gzip src))
  end.

(** [ReadFromDisk]: reads (and compresses) the spool file into [buffer], the
    named result of the function. Nothing is assigned to [buffer] before it
    is written to: it has the zero value of its type, the nil pointer. *)
Definition ReadFromDisk (so : S3Output) (e : Env) : M (option bytes) :=
  fi <- Open e (bufferFilePath so) ;;
  let buffer : option bytes := None in
  if Compression (config so)
  then LogMessage "Reading and compressing buffer file." ;;;
       of_result (gzip_copy_close buffer fi (copy_fails e))
  else LogMessage "Reading buffer file." ;;;
       of_result (ptr_ReadFrom buffer fi (copy_fails e)).

(** [so.bucket.Put(path, data, contentType, s3.Private, s3.Options{})]:
    whether it succeeded. *)
Definition bucket_Put (e : Env) (path : string) (data : bytes) (contentType : string)
  : M bool :=
  fun s =>
    let s := emit (EvPut path data contentType) s in
    if put_fails e then (Ok false, s)
    else (Ok true, add_object (mkObject path data contentType) s).

(** The remote key and the content type [Upload] computes. *)
Definition uploadPath (so : S3Output) (isMidnight : bool) (e : Env) : string :=
  let currentTime :=
    GoTime.Format local_offset (GoTime.Local (Now e 0)) "2006-01-02_150405" in
  let currentDate :=
    if isMidnight
    then GoTime.Format local_offset
           (GoTime.AddDate local_offset (GoTime.UTC (Now e 1)) 0 0 (-1)) "2006-01-02"
    else GoTime.Format local_offset (GoTime.UTC (Now e 1)) "2006-01-02" in
  let ext := if Compression (config so) then ".gz" else "" in
  Prefix (config so) +++ "/" +++ currentDate +++ "/" +++ currentTime +++ ext.

Definition uploadContentType (so : S3Output) : string :=
  if Compression (config so) then "multipart/x-gzip" else "text/plain".

(** The part of [Upload] that follows the read step: the key, the put, the
    removal of the spool file. [readBuffer] is what the variable [buffer]
    holds by then, the result of [ReadFromDisk]. *)
Definition Upload_send (so : S3Output) (readBuffer : option bytes)
  (isMidnight : bool) (e : Env) : M unit :=
  let path := uploadPath so isMidnight e in
  let contentType := uploadContentType so in
  data <- of_result (ptr_Bytes readBuffer) ;;
  ok <- bucket_Put e path data contentType ;;
  LogMessage "Upload finished, removing buffer file on disk." ;;;
  if ok : bool
  then Remove e (bufferFilePath so)
  else LogMessage "Error putting to S3 bucket" ;;; of_result (Err ErrPut).

(** An error is logged on its way out. *)
Definition logging_error {A} (msg : string) (m : M A) : M A :=
  fun s =>
    match m s with
    | (Err err, s') => (Err err, emit (EvLog msg) s')
    | other => other
    end.

(** [Upload]: flushes the buffer to disk and uploads the file contents. *)
Definition Upload (so : S3Output) (isMidnight : bool) (e : Env) : M unit :=
  notExist <- Stat_IsNotExist (bufferFilePath so) ;;
  len <- Buffer_Len ;;
  if (len =? 0) && notExist then of_result (Err ErrNothingToUpload)
  else
    logging_error "Cannot save to disk" (SaveToDisk so e) ;;;
    readBuffer <- logging_error "Cannot read from disk" (ReadFromDisk so e) ;;
    Upload_send so readBuffer isMidnight e.

End Plugin.

(* ================================================================= *)
(** ** The calendar *)

Module Calendar.
Import GoTime.

(** [all_from n z p]: [p] holds at [z], [z+1], ..., [z+n-1]. *)
Fixpoint all_from (n : nat) (z : Z) (p : Z -> bool) : bool :=
  match n with
  | O => true
  | S k => p z && all_from k (z + 1) p
  end.

(** Day of era to year of era, day of year, shifted month and day of month,
    as [civil_from_days] computes them. *)
Definition split_doe (doe : Z) : Z * Z * Z * Z :=
  let yoe := (doe - doe / 1460 + doe / 36524 - doe / 146096) / 365 in
  let doy := doe - (365 * yoe + yoe / 4 - yoe / 100) in
  let mp := (5 * doy + 2) / 153 in
  let d := doy - (153 * mp + 2) / 5 + 1 in
  (yoe, doy, mp, d).

Definition doe_ok (doe : Z) : bool :=
  let '(yoe, doy, mp, d) := split_doe doe in
  (0 <=? yoe) && (yoe <=? 399) && (0 <=? doy) && (0 <=? mp) && (mp <=? 11)
  && (1 <=? d) && (d <=? 31).

Lemma all_from_spec (p : Z -> bool) (n : nat) :
  forall z, all_from n z p = true ->
  forall x, z <= x < z + Z.of_nat n -> p x = true.
Proof.
  induction n as [|k IH]; intros z H x Hx.
  - simpl in Hx. lia.
  - simpl in H. apply andb_prop in H. destruct H as [Hz Hk].
    destruct (Z.eq_dec x z) as [->|Hne]; [exact Hz|].
    apply (IH (z + 1) Hk). lia.
Qed.

Lemma doe_ok_era : all_from (Z.to_nat 146097) 0 doe_ok = true.
Proof. vm_compute. reflexivity. Qed.

Lemma doe_ok_all (doe : Z) : 0 <= doe < 146097 -> doe_ok doe = true.
Proof.
  intros H. apply (all_from_spec doe_ok _ 0 doe_ok_era).
  rewrite Z2Nat.id; lia.
Qed.

Example epoch_day : civil_from_days 0 = (1970, 1, 1).
Proof. reflexivity. Qed.

Example leap_day : civil_from_days 11016 = (2000, 2, 29) /\ days_from_civil 2000 2 29 = 11016.
Proof. split; reflexivity. Qed.

Example day_before_march : days_from_civil 2024 3 0 = days_from_civil 2024 2 29.
Proof. reflexivity. Qed.

Example before_the_epoch : civil_from_days (-1) = (1969, 12, 31).
Proof. reflexivity. Qed.

(** [civil_from_days] yields a month in 1..12 and a day in 1..31, and
    [days_from_civil] takes the date back to the day number. *)
Lemma civil_from_days_inv (z : Z) :
  let '(y, m, d) := civil_from_days z in
  days_from_civil y m d = z /\ 1 <= m <= 12 /\ 1 <= d <= 31.
Proof.
  unfold civil_from_days.
  set (z' := z + 719468).
  set (era := z' / 146097).
  set (doe := z' - era * 146097).
  assert (Hdoe : 0 <= doe < 146097).
  { subst doe era. pose proof (Z.div_mod z' 146097 ltac:(lia)).
    pose proof (Z.mod_pos_bound z' 146097 ltac:(lia)). lia. }
  pose proof (doe_ok_all doe Hdoe) as Hok.
  unfold doe_ok, split_doe in Hok.
  set (yoe := (doe - doe / 1460 + doe / 36524 - doe / 146096) / 365) in *.
  set (doy := doe - (365 * yoe + yoe / 4 - yoe / 100)) in *.
  set (mp := (5 * doy + 2) / 153) in *.
  set (d := doy - (153 * mp + 2) / 5 + 1) in *.
  repeat (apply andb_prop in Hok; destruct Hok as [Hok ?]).
  assert (Hy : 0 <= yoe <= 399) by lia.
  assert (Hmp : 0 <= mp <= 11) by lia.
  assert (Hd : 1 <= d <= 31) by lia.
  set (m := if mp <? 10 then mp + 3 else mp - 9).
  assert (Hm : 1 <= m <= 12) by (subst m; destruct (mp <? 10) eqn:E; lia).
  split; [|split; assumption].
  unfold days_from_civil.
  assert (Hyear : (if m <=? 2
                   then (if m <=? 2 then yoe + era * 400 + 1 else yoe + era * 400) - 1
                   else (if m <=? 2 then yoe + era * 400 + 1 else yoe + era * 400))
                  = yoe + era * 400)
    by (destruct (m <=? 2); lia).
  rewrite Hyear.
  assert (Hera : (yoe + era * 400) / 400 = era).
  { rewrite Z.div_add by lia. rewrite Z.div_small by lia. lia. }
  rewrite Hera.
  assert (Hmp' : (if 2 <? m then m - 3 else m + 9) = mp).
  { subst m. destruct (mp <? 10) eqn:E1.
    - destruct (2 <? mp + 3) eqn:E2; lia.
    - destruct (2 <? mp - 9) eqn:E2; lia. }
  rewrite Hmp'.
  replace (yoe + era * 400 - era * 400) with yoe by lia.
  subst d doy doe z'. lia.
Qed.

Lemma days_from_civil_shift (y m d k : Z) :
  days_from_civil y m (d + k) = days_from_civil y m d + k.
Proof. unfold days_from_civil. lia. Qed.

Section WithZone.
Variable local_offset : Z -> Z.

Lemma wall_UTC (t : Time) : wall local_offset (UTC t) = unixNano t.
Proof. unfold wall, offset_of, UTC. simpl. lia. Qed.

(** The UTC day number of an instant. *)
Definition utc_day (ns : Z) : Z := ns / nsPerDay.

Lemma date_of_UTC (t : Time) :
  date_of local_offset (UTC t) = civil_from_days (utc_day (unixNano t)).
Proof. unfold date_of. rewrite wall_UTC. reflexivity. Qed.

(** The date of a time, put back through [time.Date] with a zero clock, is
    the start of its UTC day. *)
Lemma Date_of_date (t : Time) :
  Date (Year local_offset (UTC t)) (Month local_offset (UTC t))
       (Day local_offset (UTC t)) 0 0 0 0
  = mkTime (utc_day (unixNano t) * nsPerDay) UTCLoc.
Proof.
  unfold Year, Month, Day. rewrite date_of_UTC.
  pose proof (civil_from_days_inv (utc_day (unixNano t))) as H.
  destruct (civil_from_days (utc_day (unixNano t))) as [[y m] d].
  destruct H as (Hinv & Hm & Hd). simpl.
  unfold Date.
  replace ((m - 1) / 12) with 0 by (symmetry; apply Z.div_small; lia).
  replace ((m - 1) mod 12 + 1) with m by (rewrite Z.mod_small; lia).
  rewrite !Z.add_0_r, Hinv. f_equal. unfold nsPerDay, Second. lia.
Qed.

(** [AddDate(0, 0, -1)] on a UTC time is the instant 24 hours before. *)
Lemma AddDate_yesterday (t : Time) :
  AddDate local_offset (UTC t) 0 0 (-1) = mkTime (unixNano t - nsPerDay) UTCLoc.
Proof.
  unfold AddDate, Year, Month, Day, Hour_of, Minute_of, Second_of, Nanosecond_of.
  rewrite date_of_UTC, wall_UTC.
  pose proof (civil_from_days_inv (utc_day (unixNano t))) as H.
  destruct (civil_from_days (utc_day (unixNano t))) as [[y m] d].
  destruct H as (Hinv & Hm & Hd). simpl.
  unfold Date.
  replace ((m + 0 - 1) / 12) with 0 by (symmetry; apply Z.div_small; lia).
  replace ((m + 0 - 1) mod 12 + 1) with m by (rewrite Z.mod_small; lia).
  rewrite !Z.add_0_r, days_from_civil_shift, Hinv.
  f_equal. unfold utc_day, nsPerDay, Hour, Second.
  set (x := unixNano t). clearbody x. clear.
  Z.div_mod_to_equations. lia.
Qed.

Lemma utc_day_yesterday (ns : Z) : utc_day (ns - nsPerDay) = utc_day ns - 1.
Proof.
  unfold utc_day.
  replace (ns - nsPerDay) with (ns + (-1) * nsPerDay) by lia.
  rewrite Z.div_add by (unfold nsPerDay, Second; lia). lia.
Qed.

End WithZone.

End Calendar.

Module FormatLemmas.
Import GoTime.

Section WithZone.
Variable local_offset : Z -> Z.

Lemma append_empty_r (s : string) : s +++ "" = s.
Proof. induction s as [|c s IH]; simpl; [reflexivity | now rewrite IH]. Qed.

(** What the layout "2006-01-02" prints. *)
Lemma Format_date (t : Time) :
  Format local_offset t "2006-01-02"
  = appendInt (Year local_offset t) 4 +++ "-" +++
    appendInt (Month local_offset t) 2 +++ "-" +++
    appendInt (Day local_offset t) 2.
Proof.
  unfold Format.
  cbv -[appendInt Year Month Day Hour_of Minute_of Second_of String.append].
  cbn [String.append]. now rewrite append_empty_r.
Qed.

(** What the layout "2006-01-02_150405" prints: the underscore is not
    followed by a 2, so it stands for itself. *)
Lemma Format_stamp (t : Time) :
  Format local_offset t "2006-01-02_150405"
  = appendInt (Year local_offset t) 4 +++ "-" +++
    appendInt (Month local_offset t) 2 +++ "-" +++
    appendInt (Day local_offset t) 2 +++ "_" +++
    appendInt (Hour_of local_offset t) 2 +++
    appendInt (Minute_of local_offset t) 2 +++
    appendInt (Second_of local_offset t) 2.
Proof.
  unfold Format.
  cbv -[appendInt Year Month Day Hour_of Minute_of Second_of String.append].
  cbn [String.append]. now rewrite append_empty_r.
Qed.

End WithZone.

(** A field below [10^width] prints on exactly [width] digits. *)
Lemma appendInt_2_length (x : Z) :
  0 <= x < 100 -> String.length (appendInt x 2) = 2%nat.
Proof.
  intros H.
  assert (A : Calendar.all_from 100 0
                (fun x => Nat.eqb (String.length (appendInt x 2)) 2) = true)
    by (vm_compute; reflexivity).
  apply Nat.eqb_eq.
  apply (Calendar.all_from_spec _ _ _ A). lia.
Qed.

Lemma appendInt_4_length (x : Z) :
  0 <= x < 10000 -> String.length (appendInt x 4) = 4%nat.
Proof.
  intros H.
  assert (A : Calendar.all_from (Z.to_nat 10000) 0
                (fun x => Nat.eqb (String.length (appendInt x 4)) 4) = true)
    by (vm_compute; reflexivity).
  apply Nat.eqb_eq.
  apply (Calendar.all_from_spec _ _ _ A). rewrite Z2Nat.id; lia.
Qed.

End FormatLemmas.

(* ================================================================= *)
(** ** The daily trigger *)

Module DailyTrigger.
Import GoTime Calendar.

(** Today's 00:00:00 UTC, seen from the instant [t]. *)
Definition today_midnight (t : Z) : Z := utc_day t * nsPerDay.

Lemma today_midnight_le (t : Z) : today_midnight t <= t < today_midnight t + nsPerDay.
Proof.
  unfold today_midnight, utc_day, nsPerDay, Second.
  Z.div_mod_to_equations. lia.
Qed.

Lemma INTERVAL_PERIOD_day : INTERVAL_PERIOD = nsPerDay.
Proof. reflexivity. Qed.

Section WithZone.
Variable local_offset : Z -> Z.

(** With every reading of the clock inside one UTC day, the date handed to
    [time.Date] is that day's, and the tick is set to the next midnight. *)
Lemma nextTick_same_day (e : Env) (day : Z) :
  (forall k, (k <= 3)%nat -> utc_day (now e k) = day) ->
  unixNano (nextTick local_offset e) = day * nsPerDay + nsPerDay.
Proof.
  intros Hday. unfold nextTick, HOUR_TO_TICK, MINUTE_TO_TICK, SECOND_TO_TICK.
  unfold Year, Month, Day. rewrite !date_of_UTC.
  unfold Now. cbn [unixNano].
  rewrite !Hday by lia.
  pose proof (civil_from_days_inv day) as H.
  destruct (civil_from_days day) as [[y m] d].
  destruct H as (Hinv & Hm & Hd). cbn [fst snd].
  unfold Date.
  replace ((m - 1) / 12) with 0 by (symmetry; apply Z.div_small; lia).
  replace ((m - 1) mod 12 + 1) with m by (rewrite Z.mod_small; lia).
  rewrite !Z.add_0_r, Hinv.
  pose proof (today_midnight_le (now e 3)) as Hle.
  unfold today_midnight in Hle. rewrite (Hday 3%nat) in Hle by lia.
  unfold After. cbn [unixNano].
  replace (day * 24 * 60 * 60 * Second) with (day * nsPerDay)
    by (unfold nsPerDay, Second; lia).
  destruct (now e 3 <? day * nsPerDay) eqn:E; [lia|].
  cbn [negb Add unixNano]. rewrite INTERVAL_PERIOD_day. reflexivity.
Qed.

End WithZone.
End DailyTrigger.

(** The events of [s'] that [s] does not have yet. *)
Definition new_events (s s' : State) : list Event :=
  skipn (List.length (trace s)) (trace s').

Lemma new_events_app (s s' : State) (evs : list Event) :
  trace s' = trace s ++ evs -> new_events s s' = evs.
Proof.
  intros H. unfold new_events. rewrite H.
  rewrite skipn_app, skipn_all, Nat.sub_diag. reflexivity.
Qed.

(* ================================================================= *)
(** ** The spool: SaveToDisk and WriteToBuffer *)

Module Spool.

(** The bytes the spool file holds; none when it does not exist. *)
Definition spool_bytes (so : S3Output) (s : State) : bytes :=
  match files s (bufferFilePath so) with
  | Some c => c
  | None => []
  end.

(** The file system as [SaveToDisk] finds it when it looks for the spool
    file: the staging directory is there. *)
Definition staged (so : S3Output) (s : State) : State :=
  if dirs s (BufferPath (config so)) then s else set_dir (BufferPath (config so)) s.

(** The spool path is taken by something that is not a regular file (or
    cannot be looked up): [os.Stat] does not report it missing, nothing is
    created, and nothing opens for appending. *)
Definition spool_blocked (so : S3Output) (s : State) : bool :=
  match files s (bufferFilePath so) with
  | Some _ => false
  | None => negb (not_exist (staged so s) (bufferFilePath so))
  end.

(** Some step of [SaveToDisk] fails: the creation of the staging directory
    (attempted when it is missing), the change of directory, the creation of
    the spool file (attempted when it is missing), the open for appending
    (of a path that is taken by something else than a file, or refused), or
    the write. *)
Definition spill_fails (so : S3Output) (e : Env) (s : State) : bool :=
  (negb (dirs s (BufferPath (config so))) && mkdir_fails e)
  || chdir_fails e
  || spool_blocked so s
  || ((match files s (bufferFilePath so) with None => true | Some _ => false end)
      && create_fails e)
  || openfile_fails e
  || write_fails e.

(** Whether a spill fails does not depend on the calls made so far. *)
Lemma spill_fails_emit (so : S3Output) (e : Env) (ev : Event) (s : State) :
  spill_fails so e (emit ev s) = spill_fails so e s.
Proof.
  unfold spill_fails, spool_blocked, staged. cbn [emit dirs files].
  destruct (dirs s (BufferPath (config so))); reflexivity.
Qed.

(** The events [SaveToDisk] can add to the trace; its writes carry [data]. *)
Definition spill_event (so : S3Output) (data : bytes) (ev : Event) : Prop :=
  match ev with
  | EvMkdirAll p | EvChdir p => p = BufferPath (config so)
  | EvCreate p => p = bufferFilePath so
  | EvWrite p d => p = bufferFilePath so /\ d = data
  | EvLog _ => True
  | EvRemove _ | EvPut _ _ _ => False
  end.

Ltac unfold_os :=
  unfold bind, ret, of_result, LogMessage, Stat_IsNotExist_dir, Stat_IsNotExist,
    MkdirAll, Chdir, Create, OpenFile_append, File_Write, Open, Remove,
    Buffer_Write, Buffer_Len, Buffer_Bytes, Buffer_Reset, logging_error in *.

(** The answers of [os.Stat] on the spool path that are left to settle. *)
Ltac stat_cases :=
  repeat match goal with
         | |- context [names_dir ?ds ?p] =>
             let E := fresh "Hnames" in destruct (names_dir ds p) eqn:E
         end.

(** Evaluation, using the facts at hand on the files and directories. *)
Ltac crunch :=
  repeat (cbn in *; rewrite ?String.eqb_refl in *;
          try match goal with
              | H : ?x = _ |- context [?x] => rewrite H
              end).

Ltac spill_cases so e s :=
  unfold SaveToDisk; unfold_os; unfold spool_blocked, staged, not_exist in *;
  destruct (dirs s (BufferPath (config so))) eqn:Hdir;
  destruct (mkdir_fails e) eqn:Hmk;
  destruct (chdir_fails e) eqn:Hch;
  (destruct (files s (bufferFilePath so)) as [old|] eqn:Hfile;
   [|destruct (others s (bufferFilePath so)) eqn:Hother]);
  destruct (create_fails e) eqn:Hcr;
  destruct (openfile_fails e) eqn:Hop;
  destruct (write_fails e) eqn:Hwr;
  crunch; stat_cases; crunch.

Lemma SaveToDisk_fails (so : S3Output) (e : Env) (s : State) :
  spill_fails so e s = true ->
  exists err,
    fst (SaveToDisk so e s) = Err err
    /\ buffer (snd (SaveToDisk so e s)) = buffer s
    /\ exists part,
         spool_bytes so (snd (SaveToDisk so e s)) = spool_bytes so s ++ part
         /\ (short_write e = 0%nat -> part = []).
Proof.
  unfold spill_fails, spool_bytes. spill_cases so e s; intros H;
    try discriminate H; eexists; (split; [reflexivity|]); (split; [reflexivity|]).
  all: first [ exists []; split; [now rewrite ?app_nil_r | reflexivity]
             | exists (firstn (short_write e) (buffer s));
               split; [reflexivity | intros ->; reflexivity] ].
Qed.

Lemma SaveToDisk_succeeds (so : S3Output) (e : Env) (s : State) :
  spill_fails so e s = false ->
  fst (SaveToDisk so e s) = Ok tt
  /\ buffer (snd (SaveToDisk so e s)) = []
  /\ files (snd (SaveToDisk so e s)) (bufferFilePath so)
     = Some (spool_bytes so s ++ buffer s).
Proof.
  unfold spill_fails, spool_bytes. spill_cases so e s; intros H;
    try discriminate H; repeat split; reflexivity.
Qed.

(** [SaveToDisk] never panics. *)
Lemma SaveToDisk_no_panic (so : S3Output) (e : Env) (s : State) :
  fst (SaveToDisk so e s) <> Panic.
Proof.
  destruct (spill_fails so e s) eqn:E.
  - destruct (SaveToDisk_fails so e s E) as (err & H & _). congruence.
  - destruct (SaveToDisk_succeeds so e s E) as (H & _). congruence.
Qed.

(** The errors [SaveToDisk] can return are those of its file-system calls. *)
Lemma SaveToDisk_error (so : S3Output) (e : Env) (s : State) (err : error) :
  fst (SaveToDisk so e s) = Err err ->
  In err [ErrMkdirAll; ErrChdir; ErrCreate; ErrOpenFile; ErrWrite].
Proof.
  spill_cases so e s; intros H; inversion H; subst; cbn; tauto.
Qed.

(** What [SaveToDisk] leaves alone: the bucket and every other file. *)
Lemma SaveToDisk_frame (so : S3Output) (e : Env) (s : State) :
  remote (snd (SaveToDisk so e s)) = remote s
  /\ forall p, p <> bufferFilePath so ->
               files (snd (SaveToDisk so e s)) p = files s p.
Proof.
  split.
  - spill_cases so e s; reflexivity.
  - intros p Hp. apply String.eqb_neq in Hp.
    spill_cases so e s; rewrite ?Hp; try reflexivity.
Qed.

(** The calls [SaveToDisk] makes: at least one, none of them a put or a
    removal, and every write carries the whole buffer. *)
Lemma SaveToDisk_trace (so : S3Output) (e : Env) (s : State) :
  exists evs,
    trace (snd (SaveToDisk so e s)) = trace s ++ evs
    /\ evs <> []
    /\ Forall (spill_event so (buffer s)) evs.
Proof.
  spill_cases so e s; rewrite <- ?app_assoc; cbn;
    eexists; (split; [reflexivity|]); (split; [discriminate|]);
    repeat constructor.
Qed.

(** [WriteToBuffer], evaluated: the append, then the test of the length. *)
Lemma WriteToBuffer_eq (so : S3Output) (outBytes : bytes) (e : Env) (s : State) :
  WriteToBuffer so outBytes e s
  = if BufferChunkLimit (config so) <? Z.of_nat (List.length (buffer s ++ outBytes))
    then SaveToDisk so e (set_buffer (buffer s ++ outBytes) s)
    else (Ok tt, set_buffer (buffer s ++ outBytes) s).
Proof.
  unfold WriteToBuffer. unfold_os. cbn.
  destruct (BufferChunkLimit (config so) <? _); reflexivity.
Qed.

(** The bytes waiting for delivery: the spool file, then the buffer. *)
Definition pending (so : S3Output) (s : State) : bytes :=
  spool_bytes so s ++ buffer s.

(** [SaveToDisk] moves bytes from the head of the buffer to the tail of the
    file, or moves nothing. *)
Lemma SaveToDisk_pending (so : S3Output) (e : Env) (s : State) :
  short_write e = 0%nat ->
  pending so (snd (SaveToDisk so e s)) = pending so s
  /\ exists added, spool_bytes so (snd (SaveToDisk so e s)) = spool_bytes so s ++ added.
Proof.
  intros Hw. unfold pending. destruct (spill_fails so e s) eqn:E.
  - destruct (SaveToDisk_fails so e s E) as (err & _ & Hb & part & Hs & Hpart).
    rewrite Hb, Hs, (Hpart Hw), app_nil_r.
    split; [reflexivity|]. exists []. now rewrite app_nil_r.
  - destruct (SaveToDisk_succeeds so e s E) as (_ & Hb & Hf).
    unfold spool_bytes at 1 3. rewrite Hb, Hf, app_nil_r.
    split; [reflexivity|]. now exists (buffer s).
Qed.

Lemma WriteToBuffer_pending (so : S3Output) (outBytes : bytes) (e : Env) (s : State) :
  short_write e = 0%nat ->
  pending so (snd (WriteToBuffer so outBytes e s)) = pending so s ++ outBytes
  /\ exists added,
       spool_bytes so (snd (WriteToBuffer so outBytes e s)) = spool_bytes so s ++ added.
Proof.
  intros Hw. rewrite WriteToBuffer_eq.
  destruct (BufferChunkLimit (config so) <? _).
  - destruct (SaveToDisk_pending so e (set_buffer (buffer s ++ outBytes) s) Hw) as (Hp & Hs).
    rewrite Hp. split; [|exact Hs].
    unfold pending, spool_bytes. cbn. now rewrite app_assoc.
  - unfold pending, spool_bytes. cbn. split; [now rewrite app_assoc|].
    exists []. now rewrite app_nil_r.
Qed.

End Spool.

(* ================================================================= *)
(** ** The read step and Upload *)

Module Uploading.
Import Spool.

Section WithLibraries.
Variable gzip : bytes -> bytes.
Variable local_offset : Z -> Z.

(** [ReadFromDisk], evaluated. Once the file is open, both branches write to
    the nil [buffer]. *)
Lemma ReadFromDisk_eq (so : S3Output) (e : Env) (s : State) :
  ReadFromDisk gzip so e s
  = match files s (bufferFilePath so) with
    | None => (Err ErrOpen, s)
    | Some _ =>
        if open_fails e then (Err ErrOpen, s)
        else (Panic,
              emit (EvLog (if Compression (config so)
                           then "Reading and compressing buffer file."
                           else "Reading buffer file.")) s)
    end.
Proof.
  unfold ReadFromDisk. unfold_os.
  destruct (files s (bufferFilePath so)); [|reflexivity].
  destruct (open_fails e); [reflexivity|].
  destruct (Compression (config so)); reflexivity.
Qed.

Lemma ReadFromDisk_never_Ok (so : S3Output) (e : Env) (s : State) (b : option bytes) :
  fst (ReadFromDisk gzip so e s) <> Ok b.
Proof.
  rewrite ReadFromDisk_eq.
  destruct (files s (bufferFilePath so)); [destruct (open_fails e)|]; discriminate.
Qed.

Lemma ReadFromDisk_keeps (so : S3Output) (e : Env) (s : State) :
  buffer (snd (ReadFromDisk gzip so e s)) = buffer s
  /\ files (snd (ReadFromDisk gzip so e s)) = files s
  /\ remote (snd (ReadFromDisk gzip so e s)) = remote s.
Proof.
  rewrite ReadFromDisk_eq.
  destruct (files s (bufferFilePath so)); [destruct (open_fails e)|];
    repeat split; reflexivity.
Qed.

(** [Upload], evaluated up to the read step. *)
Lemma Upload_eq (so : S3Output) (isMidnight : bool) (e : Env) (s : State) :
  Upload gzip local_offset so isMidnight e s
  = if (Z.of_nat (List.length (buffer s)) =? 0) && not_exist s (bufferFilePath so)
    then (Err ErrNothingToUpload, s)
    else
      match SaveToDisk so e s with
      | (Ok _, s1) =>
          match ReadFromDisk gzip so e s1 with
          | (Ok readBuffer, s2) => Upload_send local_offset so readBuffer isMidnight e s2
          | (Err err, s2) => (Err err, emit (EvLog "Cannot read from disk") s2)
          | (Panic, s2) => (Panic, s2)
          end
      | (Err err, s1) => (Err err, emit (EvLog "Cannot save to disk") s1)
      | (Panic, s1) => (Panic, s1)
      end.
Proof.
  unfold Upload, bind, Stat_IsNotExist, Buffer_Len, of_result, logging_error.
  cbv beta iota.
  destruct (_ && _); [reflexivity|].
  destruct (SaveToDisk so e s) as [[[]| |] s1]; try reflexivity.
  destruct (ReadFromDisk gzip so e s1) as [[| |] s2]; reflexivity.
Qed.

(** The read step stands between every call of [Upload] and its put. *)
Lemma Upload_never_Ok (so : S3Output) (isMidnight : bool) (e : Env) (s : State) :
  fst (Upload gzip local_offset so isMidnight e s) <> Ok tt.
Proof.
  rewrite Upload_eq.
  destruct (_ && _); [discriminate|].
  destruct (SaveToDisk so e s) as [[[]| |] s1]; try discriminate.
  pose proof (ReadFromDisk_never_Ok so e s1) as H.
  destruct (ReadFromDisk gzip so e s1) as [[b| |] s2]; try discriminate.
  exfalso. exact (H b eq_refl).
Qed.

(** [Upload_send] on a buffer that is not nil, evaluated. *)
Lemma Upload_send_eq (so : S3Output) (data : bytes) (isMidnight : bool) (e : Env) (s : State) :
  Upload_send local_offset so (Some data) isMidnight e s
  = let path := uploadPath local_offset so isMidnight e in
    let s1 := emit (EvPut path data (uploadContentType so)) s in
    if put_fails e
    then (Err ErrPut,
          emit (EvLog "Error putting to S3 bucket")
            (emit (EvLog "Upload finished, removing buffer file on disk.") s1))
    else
      let s2 := emit (EvRemove (bufferFilePath so))
                  (emit (EvLog "Upload finished, removing buffer file on disk.")
                     (add_object (mkObject path data (uploadContentType so)) s1)) in
      match files s (bufferFilePath so) with
      | None => (Err ErrRemove, s2)
      | Some _ =>
          if remove_fails e then (Err ErrRemove, s2)
          else (Ok tt, set_file (bufferFilePath so) None s2)
      end.
Proof.
  unfold Upload_send, bucket_Put. unfold_os. cbv beta iota zeta.
  cbn [ptr_Bytes].
  destruct (put_fails e); [reflexivity|].
  cbn [files emit add_object].
  destruct (files s (bufferFilePath so)); [|reflexivity].
  destruct (remove_fails e); reflexivity.
Qed.

(** A send step that does not succeed leaves the files and the buffer as
    they were. *)
Lemma Upload_send_failed (so : S3Output) (readBuffer : option bytes)
  (isMidnight : bool) (e : Env) (s : State) :
  fst (Upload_send local_offset so readBuffer isMidnight e s) <> Ok tt ->
  buffer (snd (Upload_send local_offset so readBuffer isMidnight e s)) = buffer s
  /\ files (snd (Upload_send local_offset so readBuffer isMidnight e s)) = files s.
Proof.
  destruct readBuffer as [data|]; [|intros _; split; reflexivity].
  rewrite Upload_send_eq. cbv zeta.
  destruct (put_fails e); [intros _; split; reflexivity|].
  destruct (files s (bufferFilePath so)); [|intros _; split; reflexivity].
  destruct (remove_fails e); [intros _; split; reflexivity|].
  intros H. now contradiction H.
Qed.

(** An upload that does not succeed moves bytes from the buffer to the end
    of the file, or moves nothing (no failed write leaving a part behind). *)
Lemma Upload_pending (so : S3Output) (isMidnight : bool) (e : Env) (s : State) :
  short_write e = 0%nat ->
  fst (Upload gzip local_offset so isMidnight e s) <> Ok tt ->
  pending so (snd (Upload gzip local_offset so isMidnight e s)) = pending so s
  /\ exists added,
       spool_bytes so (snd (Upload gzip local_offset so isMidnight e s))
       = spool_bytes so s ++ added.
Proof.
  intros Hw. rewrite Upload_eq.
  destruct (_ && _).
  { intros _. split; [reflexivity|]. exists []. now rewrite app_nil_r. }
  pose proof (SaveToDisk_pending so e s Hw) as HS.
  destruct (SaveToDisk so e s) as [[[]| |] s1]; cbn [snd] in *;
    try (intros _; exact HS).
  pose proof (ReadFromDisk_keeps so e s1) as (Hb & Hf & _).
  destruct (ReadFromDisk gzip so e s1) as [[readBuffer| |] s2]; cbn [snd fst] in *.
  - intros Hfail.
    destruct (Upload_send_failed so readBuffer isMidnight e s2 Hfail) as (Hb' & Hf').
    unfold pending, spool_bytes in *. rewrite Hb', Hf', Hb, Hf. exact HS.
  - intros _. unfold pending, spool_bytes in *. cbn. rewrite Hb, Hf. exact HS.
  - intros _. unfold pending, spool_bytes in *. rewrite Hb, Hf. exact HS.
Qed.

(** As the read step stands, the only calls an [Upload] makes are those of
    its spill, and log messages. *)
Lemma Upload_events (so : S3Output) (isMidnight : bool) (e : Env) (s : State) :
  Forall (spill_event so (buffer s))
         (new_events s (snd (Upload gzip local_offset so isMidnight e s))).
Proof.
  rewrite Upload_eq.
  destruct (_ && _).
  { erewrite new_events_app by (cbn; now rewrite app_nil_r). constructor. }
  destruct (SaveToDisk_trace so e s) as (evs & Htr & _ & Hall).
  pose proof (ReadFromDisk_eq so e (snd (SaveToDisk so e s))) as HR.
  destruct (SaveToDisk so e s) as [[[]|err|] s1]; cbn [fst snd] in *.
  - rewrite HR.
    destruct (files s1 (bufferFilePath so)); [destruct (open_fails e)|]; cbn [snd].
    all: erewrite new_events_app
           by (cbn [trace emit]; rewrite Htr, <- ?app_assoc; reflexivity).
    all: apply Forall_app; split; [exact Hall | repeat constructor].
  - erewrite new_events_app
      by (cbn [trace emit]; rewrite Htr, <- ?app_assoc; reflexivity).
    apply Forall_app; split; [exact Hall | repeat constructor].
  - erewrite new_events_app by exact Htr. exact Hall.
Qed.

End WithLibraries.
End Uploading.

(* ================================================================= *)
(** ** Properties of the specification *)

Import Spool Uploading.

(** C3. Spill atomicity: when a step of SaveToDisk fails (creation of the
    staging directory, change of directory, creation of the spool file, open,
    append-write), the call returns an error and the buffer is as it was;
    when no step fails, the call returns nil, the spool file holds its former
    bytes followed by the buffer's, and the buffer is empty. The buffer is
    therefore changed only by a call whose write succeeded. *)
Theorem SaveToDisk_spill_atomicity (so : S3Output) (e : Env) (s : State) :
  let r := fst (SaveToDisk so e s) in
  let s' := snd (SaveToDisk so e s) in
  (spill_fails so e s = true ->
     (exists err, r = Err err) /\ buffer s' = buffer s)
  /\ (spill_fails so e s = false ->
        r = Ok tt
        /\ files s' (bufferFilePath so) = Some (spool_bytes so s ++ buffer s)
        /\ buffer s' = [])
  /\ (buffer s' <> buffer s ->
        write_fails e = false
        /\ r = Ok tt
        /\ files s' (bufferFilePath so) = Some (spool_bytes so s ++ buffer s)).
Proof.
  cbv zeta. split; [|split].
  - intros H. destruct (SaveToDisk_fails so e s H) as (err & Hr & Hb & _).
    split; [now exists err | exact Hb].
  - intros H. destruct (SaveToDisk_succeeds so e s H) as (Hr & Hb & Hf). auto.
  - intros Hne. destruct (spill_fails so e s) eqn:E.
    + destruct (SaveToDisk_fails so e s E) as (err & _ & Hb & _). contradiction.
    + destruct (SaveToDisk_succeeds so e s E) as (Hr & Hb & Hf).
      repeat split; try assumption.
      unfold spill_fails in E. apply orb_false_elim in E. tauto.
Qed.

(** C5. Size trigger: WriteToBuffer appends the payload, and calls SaveToDisk
    (on the buffer with the payload appended) if and only if the length of
    the buffer then exceeds BufferChunkLimit strictly; otherwise it touches
    nothing but the buffer. Every write the spill makes carries the whole
    buffer, whose size is at least the limit. *)
Theorem WriteToBuffer_size_trigger (so : S3Output) (outBytes : bytes) (e : Env) (s : State) :
  let limit := BufferChunkLimit (config so) in
  let appended := set_buffer (buffer s ++ outBytes) s in
  let len := Z.of_nat (List.length (buffer appended)) in
  let s' := snd (WriteToBuffer so outBytes e s) in
  (limit < len ->
     WriteToBuffer so outBytes e s = SaveToDisk so e appended /\ limit <= len)
  /\ (len <= limit -> WriteToBuffer so outBytes e s = (Ok tt, appended))
  /\ (new_events s s' <> [] <-> limit < len)
  /\ Forall (fun ev => match ev with
                       | EvWrite _ data =>
                           data = buffer s ++ outBytes
                           /\ limit <= Z.of_nat (List.length data)
                       | _ => True
                       end) (new_events s s').
Proof.
  cbv zeta. rewrite WriteToBuffer_eq. cbn [buffer set_buffer].
  destruct (SaveToDisk_trace so e (set_buffer (buffer s ++ outBytes) s))
    as (evs & Htr & Hne & Hall).
  destruct (BufferChunkLimit (config so) <? Z.of_nat (List.length (buffer s ++ outBytes)))
    eqn:E.
  - apply Z.ltb_lt in E.
    rewrite (new_events_app s _ evs Htr).
    split; [intros _; split; [reflexivity | lia]|].
    split; [intros H; lia|].
    split; [split; intros _; assumption|].
    eapply Forall_impl; [|exact Hall]. intros [] H; cbn in *; try exact I.
    destruct H as [_ ->]. split; [reflexivity | lia].
  - apply Z.ltb_ge in E. cbn [snd].
    rewrite (new_events_app s (set_buffer (buffer s ++ outBytes) s) [])
      by (cbn; now rewrite app_nil_r).
    split; [intros H; lia|].
    split; [intros _; reflexivity|].
    split; [split; intros H; [now contradiction H | lia]|].
    constructor.
Qed.

Section WithLibraries.
Variable gzip : bytes -> bytes.
Variable local_offset : Z -> Z.



(** *** The remote key *)

(** A date printed as YYYY-MM-DD. *)
Definition print_date (date : Z * Z * Z) : string :=
  let '(y, m, d) := date in
  GoTime.appendInt y 4 +++ "-" +++ GoTime.appendInt m 2 +++ "-" +++ GoTime.appendInt d 2.

(** The time of day of a wall clock (in ns) printed as HHMMSS. *)
Definition print_clock (wall : Z) : string :=
  let of_day := wall mod GoTime.nsPerDay in
  GoTime.appendInt (of_day / GoTime.Hour) 2
  +++ GoTime.appendInt ((of_day mod GoTime.Hour) / (60 * GoTime.Second)) 2
  +++ GoTime.appendInt ((of_day mod (60 * GoTime.Second)) / GoTime.Second) 2.

(** The local wall clock at an instant. *)
Definition local_wall (instant : Z) : Z :=
  instant + local_offset instant * GoTime.Second.

Lemma append_assoc (a b c : string) : (a +++ b) +++ c = a +++ b +++ c.
Proof. induction a as [|x a IH]; cbn; [reflexivity | now rewrite IH]. Qed.

Lemma uploadPath_eq (so : S3Output) (isMidnight : bool) (e : Env) :
  uploadPath local_offset so isMidnight e
  = Prefix (config so) +++ "/"
    +++ print_date (GoTime.civil_from_days
                      (Calendar.utc_day (now e 1) - (if isMidnight then 1 else 0)))
    +++ "/"
    +++ (print_date (GoTime.civil_from_days (local_wall (now e 0) / GoTime.nsPerDay))
         +++ "_" +++ print_clock (local_wall (now e 0)))
    +++ (if Compression (config so) then ".gz" else "").
Proof.
  unfold uploadPath.
  rewrite FormatLemmas.Format_stamp.
  assert (Hdate :
    (if isMidnight
     then GoTime.Format local_offset
            (GoTime.AddDate local_offset (GoTime.UTC (Now e 1)) 0 0 (-1)) "2006-01-02"
     else GoTime.Format local_offset (GoTime.UTC (Now e 1)) "2006-01-02")
    = print_date (GoTime.civil_from_days
                    (Calendar.utc_day (now e 1) - (if isMidnight then 1 else 0)))).
  { destruct isMidnight; rewrite FormatLemmas.Format_date.
    - change (GoTime.UTC (Now e 1)) with (GoTime.UTC (GoTime.mkTime (now e 1) GoTime.UTCLoc)).
      rewrite Calendar.AddDate_yesterday. cbn [GoTime.unixNano].
      unfold GoTime.Year, GoTime.Month, GoTime.Day.
      change (GoTime.mkTime (now e 1 - GoTime.nsPerDay) GoTime.UTCLoc)
        with (GoTime.UTC (GoTime.mkTime (now e 1 - GoTime.nsPerDay) GoTime.UTCLoc)).
      rewrite Calendar.date_of_UTC. cbn [GoTime.unixNano].
      rewrite Calendar.utc_day_yesterday.
      unfold print_date.
      destruct (GoTime.civil_from_days (Calendar.utc_day (now e 1) - 1)) as [[y m] d].
      reflexivity.
    - unfold GoTime.Year, GoTime.Month, GoTime.Day.
      rewrite Calendar.date_of_UTC. unfold Now. cbn [GoTime.unixNano].
      rewrite Z.sub_0_r. unfold print_date.
      destruct (GoTime.civil_from_days (Calendar.utc_day (now e 1))) as [[y m] d].
      reflexivity. }
  rewrite Hdate. clear Hdate.
  unfold GoTime.Year, GoTime.Month, GoTime.Day, GoTime.Hour_of, GoTime.Minute_of,
    GoTime.Second_of, GoTime.date_of.
  change (GoTime.wall local_offset (GoTime.Local (Now e 0))) with (local_wall (now e 0)).
  unfold print_date, print_clock.
  destruct (GoTime.civil_from_days (local_wall (now e 0) / GoTime.nsPerDay)) as [[y m] d].
  cbn [fst snd]. rewrite !append_assoc. reflexivity.
Qed.

(** C6. Remote key: the key of the put is prefix + "/" + date + "/" + time +
    ext, where date is the UTC date, printed YYYY-MM-DD, of the day before
    the current UTC day when the day-boundary flag is set and of the current
    UTC day otherwise, time is the current local time printed
    YYYY-MM-DD_HHMMSS, and ext is ".gz" when compression is on and empty
    otherwise. The put of the send step is made at that key, and no call of
    Upload makes a put at another (as the read step stands, no call gets as
    far as the put). *)
Theorem Upload_remote_key
  (so : S3Output) (isMidnight : bool) (e : Env) (s : State) (data : bytes) :
  let date :=
    GoTime.civil_from_days (Calendar.utc_day (now e 1) - (if isMidnight then 1 else 0)) in
  let time :=
    print_date (GoTime.civil_from_days (local_wall (now e 0) / GoTime.nsPerDay))
    +++ "_" +++ print_clock (local_wall (now e 0)) in
  let ext := if Compression (config so) then ".gz" else "" in
  let key := Prefix (config so) +++ "/" +++ print_date date +++ "/" +++ time +++ ext in
  uploadPath local_offset so isMidnight e = key
  /\ (exists rest,
        new_events s (snd (Upload_send local_offset so (Some data) isMidnight e s))
        = EvPut key data (uploadContentType so) :: rest
        /\ forall k d c, ~ In (EvPut k d c) rest)
  /\ (forall k d c,
        In (EvPut k d c) (new_events s (snd (Upload gzip local_offset so isMidnight e s))) ->
        k = key).
Proof.
  cbv zeta. rewrite <- uploadPath_eq. split; [reflexivity|].
  split.
  2: { intros k d c H. exfalso.
       pose proof (Upload_events gzip local_offset so isMidnight e s) as Hall.
       rewrite Forall_forall in Hall. exact (Hall _ H). }
  rewrite Upload_send_eq. cbv zeta.
  destruct (put_fails e); [|destruct (files s (bufferFilePath so));
                             [destruct (remove_fails e)|]]; cbn [snd].
  all: erewrite new_events_app by (cbn; rewrite <- !app_assoc; reflexivity).
  all: eexists; split; [reflexivity|].
  all: intros k d c; cbn; intros H;
    repeat (destruct H as [H|H]; [discriminate H|]); exact H.
Qed.

(** A date in the years 0..9999 prints on 10 bytes. *)
Lemma print_date_length (z : Z) :
  0 <= fst (fst (GoTime.civil_from_days z)) < 10000 ->
  String.length (print_date (GoTime.civil_from_days z)) = 10%nat.
Proof.
  pose proof (Calendar.civil_from_days_inv z) as H.
  destruct (GoTime.civil_from_days z) as [[y m] d]. destruct H as (_ & Hm & Hd).
  cbn [fst]. intros Hy. unfold print_date.
  assert (L : forall a b, String.length (a +++ b) = (String.length a + String.length b)%nat).
  { induction a; cbn; intros; [reflexivity | now rewrite IHa]. }
  rewrite !L, FormatLemmas.appendInt_4_length, !FormatLemmas.appendInt_2_length by lia.
  reflexivity.
Qed.

(** *** The daily trigger *)

(** C8. Daily-trigger recomputation: midnightTickerUpdate, called at an
    instant of the UTC day [day] (all its readings of the clock fall in that
    day; they may be one and the same instant), aims at today's 00:00:00 UTC
    if that is still strictly after now, and at that instant plus 24 hours
    otherwise; the instant it aims at is strictly after every reading of the
    clock, and the ticker is made with the positive distance to it. *)
Theorem midnightTickerUpdate_strictly_future (e : Env) (day : Z) :
  (forall k, (k <= 4)%nat -> Calendar.utc_day (now e k) = day) ->
  let today := day * GoTime.nsPerDay in
  let next := GoTime.unixNano (nextTick local_offset e) in
  next = (if now e 3 <? today then today else today + INTERVAL_PERIOD)
  /\ (forall k, (k <= 4)%nat -> now e k < next)
  /\ midnightTickerUpdate local_offset e = Ok (mkTicker (next - now e 4))
  /\ 0 < next - now e 4.
Proof.
  intros Hday. cbv zeta.
  assert (Hin : forall k, (k <= 4)%nat ->
                  day * GoTime.nsPerDay <= now e k < day * GoTime.nsPerDay + GoTime.nsPerDay).
  { intros k Hk. pose proof (DailyTrigger.today_midnight_le (now e k)) as H.
    unfold DailyTrigger.today_midnight in H. now rewrite (Hday k Hk) in H. }
  assert (Hnext : GoTime.unixNano (nextTick local_offset e)
                  = day * GoTime.nsPerDay + GoTime.nsPerDay).
  { apply DailyTrigger.nextTick_same_day. intros k Hk. apply Hday. lia. }
  rewrite Hnext, DailyTrigger.INTERVAL_PERIOD_day.
  pose proof (Hin 3%nat ltac:(lia)) as H3.
  pose proof (Hin 4%nat ltac:(lia)) as H4.
  split; [|split; [|split]].
  - destruct (now e 3 <? day * GoTime.nsPerDay) eqn:E; [lia | reflexivity].
  - intros k Hk. specialize (Hin k Hk). lia.
  - unfold midnightTickerUpdate, GoTime.Sub, NewTicker, Now. cbn [GoTime.unixNano].
    rewrite Hnext.
    destruct (day * GoTime.nsPerDay + GoTime.nsPerDay - now e 4 <=? 0) eqn:E;
      [lia | reflexivity].
  - lia.
Qed.

End WithLibraries.

(* ================================================================= *)
(** ** A concrete configuration *)

Module Sample.

Definition cfg (compression : bool) (limit : Z) : S3OutputConfig :=
  mkConfig "secret" "access" "us-east-1" "logs" "/app/web" 60
           compression "/var/spool/heka" limit.

(** The plugin as [Init] leaves it. *)
Definition so (compression : bool) (limit : Z) : S3Output :=
  mkS3Output (cfg compression limit) "/var/spool/heka/logs_app_web".

(** Nothing on disk, nothing in the bucket, an empty buffer. *)
Definition fresh : State :=
  mkState [] (fun _ => false) (fun _ => None) (fun _ => false) "/" [] [].

(** The spool file holds [c]; the buffer holds [b]. *)
Definition spooled (c b : bytes) : State :=
  mkState b
          (fun p => String.eqb p "/var/spool/heka")
          (fun p => if String.eqb p "/var/spool/heka/logs_app_web" then Some c else None)
          (fun _ => false)
          "/var/spool/heka" [] [].

(** 2024-03-02T00:00:01Z. *)
Definition instant : Z := 1709337601 * GoTime.Second.

(** Every call succeeds; the clock stands at [t]. *)
Definition calm (t : Z) : Env :=
  mkEnv false false false false false 0 false false false false (fun _ => t).

(** As [calm], with a bucket that refuses the put. *)
Definition put_down (t : Z) : Env :=
  mkEnv false false false false false 0 false false true false (fun _ => t).


(** As [calm], with a disk that refuses the write, after [n] bytes of it. *)
Definition disk_full (n : nat) (t : Z) : Env :=
  mkEnv false false false false true n false false false false (fun _ => t).

Definition text (s : string) : bytes := list_byte_of_string s.

Example so_from_Init (compression : bool) (limit : Z) :
  Init true true (cfg compression limit) = Ok (so compression limit).
Proof. reflexivity. Qed.

(** The plugin as [Init] leaves it when neither a bucket nor a prefix is
    configured: the spool path is the staging path with a slash. *)
Definition unnamed : S3Output :=
  mkS3Output (mkConfig "secret" "access" "us-east-1" "" "" 60 true "/var/spool/heka" 10)
             "/var/spool/heka/".

Example unnamed_from_Init :
  Init true true (mkConfig "secret" "access" "us-east-1" "" "" 60 true "/var/spool/heka" 10)
  = Ok unnamed.
Proof. reflexivity. Qed.

Definition no_zone : Z -> Z := fun _ => 0.
(** Six hours west of UTC. *)
Definition west6 : Z -> Z := fun _ => -21600.

End Sample.

(* ================================================================= *)
(** ** The read step on an existing spool file *)

(** C10. The claim is that ReadFromDisk, when the spool file exists, copies
    into a buffer that is not nil and returns it. In the code the
    destination is the named result [buffer], which nothing initialises:
    whenever the spool file exists and opens, with or without compression,
    the call panics, and the world is left with the file intact and nothing
    returned. *)
Theorem ReadFromDisk_panics_on_existing_spool
  (gzip : bytes -> bytes) (so : S3Output) (e : Env) (s : State) (contents : bytes) :
  files s (bufferFilePath so) = Some contents ->
  open_fails e = false ->
  fst (ReadFromDisk gzip so e s) = Panic
  /\ files (snd (ReadFromDisk gzip so e s)) (bufferFilePath so) = Some contents.
Proof.
  intros Hf Ho. rewrite ReadFromDisk_eq, Hf, Ho. cbn. auto.
Qed.

Lemma ReadFromDisk_panics_on_existing_spool_witness :
  fst (ReadFromDisk (fun b => b) (Sample.so true 10) (Sample.calm Sample.instant)
         (Sample.spooled (Sample.text "a") [])) = Panic
  /\ files (snd (ReadFromDisk (fun b => b) (Sample.so true 10) (Sample.calm Sample.instant)
                   (Sample.spooled (Sample.text "a") [])))
       (bufferFilePath (Sample.so true 10)) = Some (Sample.text "a").
Proof.
  apply (ReadFromDisk_panics_on_existing_spool
           (fun b => b) (Sample.so true 10) (Sample.calm Sample.instant)
           (Sample.spooled (Sample.text "a") []) (Sample.text "a"));
    reflexivity.
Defined.

(** C7. The claim is that Upload sends the contents of the spool file, as
    they are or gzipped. In the code, whenever Upload has something to
    upload, spills without error and opens the spool file, it panics in the
    read step: it sends nothing, the bucket is as it was, and the spool file
    keeps everything. *)
Theorem Upload_sends_nothing
  (gzip : bytes -> bytes) (local_offset : Z -> Z)
  (so : S3Output) (isMidnight : bool) (e : Env) (s : State) :
  buffer s <> [] \/ files s (bufferFilePath so) <> None ->
  spill_fails so e s = false ->
  open_fails e = false ->
  let r := Upload gzip local_offset so isMidnight e s in
  fst r = Panic
  /\ remote (snd r) = remote s
  /\ (forall k d c, ~ In (EvPut k d c) (new_events s (snd r)))
  /\ files (snd r) (bufferFilePath so) = Some (spool_bytes so s ++ buffer s).
Proof.
  intros Hsome Hspill Hopen. cbv zeta. rewrite Upload_eq.
  assert (C : (Z.of_nat (List.length (buffer s)) =? 0)
              && not_exist s (bufferFilePath so) = false).
  { destruct Hsome as [H|H].
    - destruct (buffer s); [congruence | reflexivity].
    - unfold not_exist.
      destruct (files s (bufferFilePath so)); [apply andb_false_r | congruence]. }
  rewrite C.
  destruct (SaveToDisk_succeeds so e s Hspill) as (Hr & _ & Hf).
  destruct (SaveToDisk_frame so e s) as (Hrem & _).
  destruct (SaveToDisk_trace so e s) as (evs & Htr & _ & Hall).
  destruct (SaveToDisk so e s) as [r1 s1]. cbn [fst snd] in *. subst r1.
  rewrite ReadFromDisk_eq, Hf, Hopen.
  cbn [fst snd emit remote files trace].
  repeat split; try assumption.
  intros k d c.
  erewrite new_events_app
    by (cbn [trace emit]; rewrite Htr, <- app_assoc; reflexivity).
  rewrite in_app_iff. intros [H|[H|[]]]; [|discriminate H].
  rewrite Forall_forall in Hall. apply Hall in H. exact H.
Qed.

Lemma Upload_sends_nothing_witness :
  let r := Upload (fun b => b) Sample.no_zone (Sample.so false 10) false
             (Sample.calm Sample.instant) (Sample.spooled (Sample.text "abc") []) in
  fst r = Panic
  /\ remote (snd r) = []
  /\ (forall k d c, ~ In (EvPut k d c)
                      (new_events (Sample.spooled (Sample.text "abc") []) (snd r)))
  /\ files (snd r) "/var/spool/heka/logs_app_web" = Some (Sample.text "abc").
Proof.
  apply (Upload_sends_nothing (fun b => b) Sample.no_zone (Sample.so false 10) false
           (Sample.calm Sample.instant) (Sample.spooled (Sample.text "abc") [])).
  - right. discriminate.
  - reflexivity.
  - reflexivity.
Defined.

(* ================================================================= *)
(** ** Durability *)

(** The staging path and the spool path are absolute: from one call to the
    next, whatever the working directory [SaveToDisk] leaves, they name the
    same directory and the same file. *)
Definition absolute_paths (so : S3Output) : bool :=
  IsAbs (BufferPath (config so)) && IsAbs (bufferFilePath so).

(** [Init] derives an absolute spool path from an absolute staging path. *)
Lemma Init_absolute_paths (auth_ok region_known : bool) (cfg : S3OutputConfig) (so : S3Output) :
  Init auth_ok region_known cfg = Ok so ->
  IsAbs (BufferPath cfg) = true ->
  absolute_paths so = true.
Proof.
  unfold Init. destruct (negb auth_ok); [discriminate|].
  destruct (negb region_known); [discriminate|].
  intros H Habs. inversion H; subst; clear H. unfold absolute_paths. cbn.
  rewrite Habs. destruct (BufferPath cfg); [discriminate | exact Habs].
Qed.

Section Durability.
Variable gzip : bytes -> bytes.
Variable local_offset : Z -> Z.
Variable so : S3Output.
Variable start : State.

(** The states a run reaches from [start] through appends, spills and
    uploads that do not succeed, each under an environment of its own in
    which no failed write leaves a part of its data in the file, with the
    payloads handed to WriteToBuffer on the way, in order. (A state in which
    a call has just panicked is among them; that the process would stop there
    only makes the runs fewer.) *)
Inductive reaches : list bytes -> State -> Prop :=
| reaches_start : reaches [] start
| reaches_append (payloads : list bytes) (s : State) (outBytes : bytes) (e : Env) :
    reaches payloads s ->
    short_write e = 0%nat ->
    reaches (payloads ++ [outBytes]) (snd (WriteToBuffer so outBytes e s))
| reaches_spill (payloads : list bytes) (s : State) (e : Env) :
    reaches payloads s ->
    short_write e = 0%nat ->
    reaches payloads (snd (SaveToDisk so e s))
| reaches_failed_upload (payloads : list bytes) (s : State) (isMidnight : bool) (e : Env) :
    reaches payloads s ->
    short_write e = 0%nat ->
    fst (Upload gzip local_offset so isMidnight e s) <> Ok tt ->
    reaches payloads (snd (Upload gzip local_offset so isMidnight e s)).

Lemma reaches_pending (payloads : list bytes) (s : State) :
  reaches payloads s ->
  pending so s = pending so start ++ List.concat payloads
  /\ exists appended, spool_bytes so s = spool_bytes so start ++ appended.
Proof.
  induction 1 as [|payloads s outBytes e _ [IHp [a IHs]] Hw
                  |payloads s e _ [IHp [a IHs]] Hw
                  |payloads s isMidnight e _ [IHp [a IHs]] Hw Hfail].
  - split; [now rewrite app_nil_r|]. exists []. now rewrite app_nil_r.
  - destruct (WriteToBuffer_pending so outBytes e s Hw) as (Hp & b & Hs).
    split.
    + rewrite Hp, IHp, List.concat_app. cbn. now rewrite app_nil_r, app_assoc.
    + exists (a ++ b). now rewrite Hs, IHs, app_assoc.
  - destruct (SaveToDisk_pending so e s Hw) as (Hp & b & Hs).
    split; [now rewrite Hp|]. exists (a ++ b). now rewrite Hs, IHs, app_assoc.
  - destruct (Upload_pending gzip local_offset so isMidnight e s Hw Hfail) as (Hp & b & Hs).
    split; [now rewrite Hp|]. exists (a ++ b). now rewrite Hs, IHs, app_assoc.
Qed.

(** C1 (amended). Durability: with an absolute staging path and an absolute
    spool path, at every state of such a run, the bytes appended to the spool
    file during the run, followed by the contents of the buffer, are the
    payloads handed to WriteToBuffer, concatenated in arrival order (after
    what the buffer held at the start). *)
Theorem durability_spool_then_buffer (payloads : list bytes) (s : State) :
  absolute_paths so = true ->
  reaches payloads s ->
  exists appended,
    spool_bytes so s = spool_bytes so start ++ appended
    /\ appended ++ buffer s = buffer start ++ List.concat payloads.
Proof.
  intros _ H. destruct (reaches_pending payloads s H) as (Hp & appended & Hs).
  exists appended. split; [exact Hs|].
  unfold pending in Hp. rewrite Hs, <- !app_assoc in Hp.
  now apply app_inv_head in Hp.
Qed.

End Durability.

Lemma durability_spool_then_buffer_witness :
  let so := Sample.so false 10 in
  let e := Sample.calm Sample.instant in
  let s1 := snd (WriteToBuffer so (Sample.text "a") e Sample.fresh) in
  let s2 := snd (WriteToBuffer so (Sample.text "0123456789abcde") e s1) in
  let s3 := snd (SaveToDisk so (Sample.disk_full 0 Sample.instant) s2) in
  let s4 := snd (Upload (fun b => b) Sample.no_zone so false e s3) in
  exists appended,
    spool_bytes so s4 = spool_bytes so Sample.fresh ++ appended
    /\ appended ++ buffer s4
       = buffer Sample.fresh ++ List.concat [Sample.text "a"; Sample.text "0123456789abcde"].
Proof.
  cbv zeta.
  apply (durability_spool_then_buffer (fun b => b) Sample.no_zone (Sample.so false 10)
           Sample.fresh [Sample.text "a"; Sample.text "0123456789abcde"]);
    [reflexivity|].
  apply reaches_failed_upload.
  - apply reaches_spill; [|reflexivity].
    apply (reaches_append _ _ _ _ [Sample.text "a"]); [|reflexivity].
    apply (reaches_append _ _ _ _ []); [|reflexivity].
    apply reaches_start.
  - reflexivity.
  - vm_compute. discriminate.
Defined.

(** C1, as stated: the buffer followed by the bytes appended to the spool
    file. With a limit of 1 (and absolute paths), the payload "ab" is spilled
    and the payload "c" stays in the buffer: the buffer followed by the file
    reads "cab". *)
Lemma durability_buffer_then_spool_fails :
  ~ (forall (so : S3Output) (start : State) (payloads : list bytes) (s : State),
        absolute_paths so = true ->
        reaches (fun b => b) Sample.no_zone so start payloads s ->
        exists appended,
          spool_bytes so s = spool_bytes so start ++ appended
          /\ buffer s ++ appended = buffer start ++ List.concat payloads).
Proof.
  intros H.
  pose (so := Sample.so false 1).
  pose (e := Sample.calm Sample.instant).
  pose (s1 := snd (WriteToBuffer so (Sample.text "ab") e Sample.fresh)).
  pose (s2 := snd (WriteToBuffer so (Sample.text "c") e s1)).
  assert (R : reaches (fun b => b) Sample.no_zone so Sample.fresh
                [Sample.text "ab"; Sample.text "c"] s2).
  { apply (reaches_append _ _ _ _ [Sample.text "ab"]); [|reflexivity].
    apply (reaches_append _ _ _ _ []); [|reflexivity].
    apply reaches_start. }
  destruct (H so _ _ _ eq_refl R) as (appended & Hs & Hb).
  vm_compute in Hs. subst appended.
  vm_compute in Hb. discriminate Hb.
Qed.

(** Why the runs above leave out failed writes that are short: the part
    that reached the file is appended again by the next spill. With a limit
    of 1, the spill of "ab" fails after one byte, and the next spill
    succeeds: the file reads "aab". *)
Lemma short_write_is_appended_twice :
  let so := Sample.so false 1 in
  let s1 := snd (WriteToBuffer so (Sample.text "ab")
                   (Sample.disk_full 1 Sample.instant) Sample.fresh) in
  let s2 := snd (SaveToDisk so (Sample.calm Sample.instant) s1) in
  buffer s1 = Sample.text "ab"
  /\ spool_bytes so s1 = Sample.text "a"
  /\ spool_bytes so s2 ++ buffer s2 = Sample.text "aab".
Proof. repeat split. Qed.

(* ================================================================= *)
(** ** The path of the spool file *)

Module SpoolPath.

Lemma Split_not_nil (s : string) (sep : ascii) : Split s sep <> [].
Proof.
  destruct s as [|c rest]; cbn; [discriminate|].
  destruct (Ascii.eqb c sep); [discriminate|].
  destruct (Split rest sep); discriminate.
Qed.

Lemma Join_cons (e : string) (rest : list string) (sep : string) :
  rest <> [] -> Join (e :: rest) sep = e +++ sep +++ Join rest sep.
Proof. destruct rest; [congruence | reflexivity]. Qed.

(** Splitting at a byte and joining with another replaces the one by the
    other. *)
Lemma Join_Split (s : string) (old new : ascii) :
  Join (Split s old) (String new EmptyString) = replace_char old new s.
Proof.
  induction s as [|c rest IH]; [reflexivity|].
  cbn [Split replace_char].
  destruct (Ascii.eqb c old).
  - rewrite Join_cons by apply Split_not_nil. cbn. now rewrite IH.
  - pose proof (Split_not_nil rest old) as Hne.
    destruct (Split rest old) as [|piece pieces]; [congruence|].
    rewrite <- IH. destruct pieces; reflexivity.
Qed.

(** The name [Init] gives the spool file. *)
Lemma Init_bufferFilePath (auth_ok region_known : bool) (cfg : S3OutputConfig) (so : S3Output) :
  Init auth_ok region_known cfg = Ok so ->
  config so = cfg
  /\ bufferFilePath so
     = BufferPath cfg +++ "/" +++ Bucket cfg +++ replace_char "/" "_" (Prefix cfg).
Proof.
  unfold Init. destruct (negb auth_ok); [discriminate|].
  destruct (negb region_known); [discriminate|].
  intros H. inversion H; subst; clear H. cbn.
  split; [reflexivity|].
  now rewrite (Join_Split (Prefix cfg) "/" "_").
Qed.

Lemma append_inv_head (a b c : string) : a +++ b = a +++ c -> b = c.
Proof. induction a as [|x a IH]; cbn; intros H; [exact H|]. inversion H. auto. Qed.

(** On prefixes without an underscore the replacement loses nothing. *)
Lemma replace_char_inj (p q : string) :
  contains_char "_" p = false -> contains_char "_" q = false ->
  replace_char "/" "_" p = replace_char "/" "_" q -> p = q.
Proof.
  revert q. induction p as [|c p IH]; intros [|d q]; cbn; try discriminate; auto.
  intros Hp Hq H.
  apply orb_false_elim in Hp. destruct Hp as [Hc Hp].
  apply orb_false_elim in Hq. destruct Hq as [Hd Hq].
  inversion H as [[Hhead Htail]].
  f_equal; [|now apply IH].
  destruct (Ascii.eqb c "/") eqn:Ec; destruct (Ascii.eqb d "/") eqn:Ed.
  - apply Ascii.eqb_eq in Ec, Ed. congruence.
  - subst d. rewrite Ascii.eqb_refl in Hd. discriminate.
  - subst c. rewrite Ascii.eqb_refl in Hc. discriminate.
  - exact Hhead.
Qed.

(** A prefix that is empty or starts with the separator. *)
Definition rooted (p : string) : bool :=
  match p with
  | EmptyString => true
  | String c _ => Ascii.eqb c "/"
  end.

(** A configuration whose spool file name shows where the bucket ends: no
    underscore in the bucket nor in the prefix, and a prefix that is empty or
    starts with "/". *)
Definition separable (cfg : S3OutputConfig) : bool :=
  negb (contains_char "_" (Bucket cfg))
  && negb (contains_char "_" (Prefix cfg))
  && rooted (Prefix cfg).

(** Where the bucket holds no underscore and the rest is empty or starts
    with one, the name splits in one way only. *)
Lemma bucket_boundary (b1 b2 q1 q2 : string) :
  contains_char "_" b1 = false -> contains_char "_" b2 = false ->
  (q1 = "" \/ exists r, q1 = String "_" r) ->
  (q2 = "" \/ exists r, q2 = String "_" r) ->
  b1 +++ q1 = b2 +++ q2 -> b1 = b2 /\ q1 = q2.
Proof.
  revert b2. induction b1 as [|c b1 IH]; intros [|d b2] H1 H2 Q1 Q2 H; cbn in *.
  - auto.
  - apply orb_false_elim in H2. destruct H2 as [Hd _].
    destruct Q1 as [->|[r ->]]; [discriminate|].
    inversion H; subst. rewrite Ascii.eqb_refl in Hd. discriminate.
  - apply orb_false_elim in H1. destruct H1 as [Hc _].
    destruct Q2 as [->|[r ->]]; [discriminate|].
    inversion H; subst. rewrite Ascii.eqb_refl in Hc. discriminate.
  - apply orb_false_elim in H1. destruct H1 as [_ H1].
    apply orb_false_elim in H2. destruct H2 as [_ H2].
    inversion H; subst.
    destruct (IH b2 H1 H2 Q1 Q2 ltac:(assumption)) as [-> ->]. auto.
Qed.

Lemma rooted_replace (p : string) :
  rooted p = true ->
  replace_char "/" "_" p = "" \/ exists r, replace_char "/" "_" p = String "_" r.
Proof.
  destruct p as [|c p]; cbn; [auto|].
  intros ->. right. eauto.
Qed.

End SpoolPath.

(** C9 (amended). Spool-path derivation: Init sets the path of the spool
    file to bufferPath + "/" + bucket followed by the prefix with every "/"
    replaced by "_"; over the configurations in which neither the bucket nor
    the prefix holds a "_" and the prefix is empty or starts with "/", two
    configurations with the same staging root and the same spool path have
    the same bucket and the same prefix. *)
Theorem Init_spool_path
  (cfg1 cfg2 : S3OutputConfig) (so1 so2 : S3Output) :
  Init true true cfg1 = Ok so1 ->
  Init true true cfg2 = Ok so2 ->
  bufferFilePath so1
  = BufferPath cfg1 +++ "/" +++ Bucket cfg1 +++ replace_char "/" "_" (Prefix cfg1)
  /\ (BufferPath cfg1 = BufferPath cfg2 ->
      SpoolPath.separable cfg1 = true ->
      SpoolPath.separable cfg2 = true ->
      bufferFilePath so1 = bufferFilePath so2 ->
      Bucket cfg1 = Bucket cfg2 /\ Prefix cfg1 = Prefix cfg2).
Proof.
  intros H1 H2.
  destruct (SpoolPath.Init_bufferFilePath _ _ _ _ H1) as (_ & P1).
  destruct (SpoolPath.Init_bufferFilePath _ _ _ _ H2) as (_ & P2).
  split; [exact P1|].
  intros Hroot S1 S2 Hpath.
  rewrite P1, P2, Hroot in Hpath.
  apply SpoolPath.append_inv_head in Hpath.
  apply SpoolPath.append_inv_head in Hpath.
  unfold SpoolPath.separable in S1, S2.
  apply andb_prop in S1. destruct S1 as [S1 R1]. apply andb_prop in S1.
  destruct S1 as [B1 U1]. apply negb_true_iff in B1, U1.
  apply andb_prop in S2. destruct S2 as [S2 R2]. apply andb_prop in S2.
  destruct S2 as [B2 U2]. apply negb_true_iff in B2, U2.
  destruct (SpoolPath.bucket_boundary _ _ _ _ B1 B2
              (SpoolPath.rooted_replace _ R1) (SpoolPath.rooted_replace _ R2) Hpath)
    as [Hb Hq].
  split; [exact Hb|]. now apply SpoolPath.replace_char_inj.
Qed.

Lemma Init_spool_path_witness :
  let cfg1 := Sample.cfg true 10 in
  let cfg2 := Sample.cfg false 20 in
  bufferFilePath (Sample.so true 10) = "/var/spool/heka/logs_app_web"
  /\ Bucket cfg1 = Bucket cfg2 /\ Prefix cfg1 = Prefix cfg2.
Proof.
  cbv zeta.
  destruct (Init_spool_path (Sample.cfg true 10) (Sample.cfg false 20)
              (Sample.so true 10) (Sample.so false 20) eq_refl eq_refl) as [P I].
  split; [rewrite P; reflexivity|].
  apply I; reflexivity.
Defined.

(** C9, as stated: injective over all (bucket, prefix) pairs. The prefixes
    "/app/web" and "/app_web" of one bucket, under one staging root, get the
    same spool file. *)
Lemma spool_path_collision :
  exists cfg1 cfg2 so1 so2,
    Init true true cfg1 = Ok so1
    /\ Init true true cfg2 = Ok so2
    /\ BufferPath cfg1 = BufferPath cfg2
    /\ (Bucket cfg1, Prefix cfg1) <> (Bucket cfg2, Prefix cfg2)
    /\ bufferFilePath so1 = bufferFilePath so2.
Proof.
  exists (mkConfig "secret" "access" "us-east-1" "logs" "/app/web" 60 true
                   "/var/spool/heka" 10).
  exists (mkConfig "secret" "access" "us-east-1" "logs" "/app_web" 60 true
                   "/var/spool/heka" 10).
  eexists. eexists.
  split; [reflexivity|]. split; [reflexivity|]. split; [reflexivity|].
  split; [discriminate | reflexivity].
Qed.

(* ================================================================= *)
(** ** The properties at the sample configuration *)

Lemma SaveToDisk_spill_atomicity_witness :
  let so := Sample.so true 10 in
  let s := Sample.spooled (Sample.text "abc") (Sample.text "de") in
  (exists err, fst (SaveToDisk so (Sample.disk_full 0 Sample.instant) s) = Err err)
  /\ buffer (snd (SaveToDisk so (Sample.disk_full 0 Sample.instant) s)) = Sample.text "de"
  /\ fst (SaveToDisk so (Sample.calm Sample.instant) s) = Ok tt
  /\ files (snd (SaveToDisk so (Sample.calm Sample.instant) s)) (bufferFilePath so)
     = Some (Sample.text "abcde")
  /\ buffer (snd (SaveToDisk so (Sample.calm Sample.instant) s)) = [].
Proof.
  cbv zeta.
  destruct (SaveToDisk_spill_atomicity (Sample.so true 10)
              (Sample.disk_full 0 Sample.instant)
              (Sample.spooled (Sample.text "abc") (Sample.text "de"))) as (F & _ & _).
  destruct (SaveToDisk_spill_atomicity (Sample.so true 10)
              (Sample.calm Sample.instant)
              (Sample.spooled (Sample.text "abc") (Sample.text "de"))) as (_ & S & _).
  destruct (F eq_refl) as (Ferr & Fbuf).
  destruct (S eq_refl) as (Sok & Sfile & Sbuf).
  repeat split; assumption.
Defined.

(** The scenario of the specification: with a threshold of 10, one byte
    stays in the buffer, and 15 bytes more are spilled with it. *)
Lemma WriteToBuffer_size_trigger_witness :
  let so := Sample.so true 10 in
  let e := Sample.calm Sample.instant in
  let s1 := set_buffer (Sample.text "a") Sample.fresh in
  WriteToBuffer so (Sample.text "a") e Sample.fresh = (Ok tt, s1)
  /\ WriteToBuffer so (Sample.text "0123456789abcde") e s1
     = SaveToDisk so e (set_buffer (Sample.text "a0123456789abcde") s1)
  /\ files (snd (WriteToBuffer so (Sample.text "0123456789abcde") e s1)) (bufferFilePath so)
     = Some (Sample.text "a0123456789abcde")
  /\ buffer (snd (WriteToBuffer so (Sample.text "0123456789abcde") e s1)) = [].
Proof.
  cbv zeta.
  destruct (WriteToBuffer_size_trigger (Sample.so true 10) (Sample.text "a")
              (Sample.calm Sample.instant) Sample.fresh) as (_ & Below & _).
  destruct (WriteToBuffer_size_trigger (Sample.so true 10) (Sample.text "0123456789abcde")
              (Sample.calm Sample.instant) (set_buffer (Sample.text "a") Sample.fresh))
    as (Above & _).
  split; [apply Below; vm_compute; discriminate|].
  destruct Above as [Espill _]; [vm_compute; reflexivity|].
  split; [exact Espill|].
  split; reflexivity.
Defined.


(** With neither bucket nor prefix the spool path is the staging directory:
    Upload finds it there, goes on to the spill, and the spill stops at the
    open, a directory being no file to append to. *)
Example Upload_on_the_staging_directory :
  let r := Upload (fun b => b) Sample.no_zone Sample.unnamed false
             (Sample.calm Sample.instant) (Sample.spooled [] []) in
  fst r = Err ErrOpenFile
  /\ new_events (Sample.spooled [] []) (snd r)
     = [EvChdir "/var/spool/heka"; EvLog "Cannot save to disk"].
Proof. vm_compute. split; reflexivity. Qed.



(** The example of the specification: at 2024-03-02T00:00:01Z the upload of
    the daily boundary goes under 2024-03-01, and any other under 2024-03-02;
    the time component follows the local zone. *)
Lemma Upload_remote_key_witness :
  uploadPath Sample.no_zone (Sample.so true 10) true (Sample.calm Sample.instant)
  = "/app/web/2024-03-01/2024-03-02_000001.gz"
  /\ uploadPath Sample.no_zone (Sample.so false 10) false (Sample.calm Sample.instant)
     = "/app/web/2024-03-02/2024-03-02_000001"
  /\ uploadPath Sample.west6 (Sample.so false 10) false (Sample.calm Sample.instant)
     = "/app/web/2024-03-02/2024-03-01_180001".
Proof.
  split; [|split].
  - rewrite (proj1 (Upload_remote_key (fun b => b) Sample.no_zone (Sample.so true 10) true
                      (Sample.calm Sample.instant) Sample.fresh [])).
    vm_compute. reflexivity.
  - rewrite (proj1 (Upload_remote_key (fun b => b) Sample.no_zone (Sample.so false 10) false
                      (Sample.calm Sample.instant) Sample.fresh [])).
    vm_compute. reflexivity.
  - rewrite (proj1 (Upload_remote_key (fun b => b) Sample.west6 (Sample.so false 10) false
                      (Sample.calm Sample.instant) Sample.fresh [])).
    vm_compute. reflexivity.
Defined.

(** One second after midnight UTC the next tick is 23:59:59 away. *)
Lemma midnightTickerUpdate_strictly_future_witness :
  Sample.instant < GoTime.unixNano (nextTick Sample.no_zone (Sample.calm Sample.instant))
  /\ midnightTickerUpdate Sample.no_zone (Sample.calm Sample.instant)
     = Ok (mkTicker (GoTime.unixNano (nextTick Sample.no_zone (Sample.calm Sample.instant))
                     - Sample.instant)).
Proof.
  destruct (midnightTickerUpdate_strictly_future Sample.no_zone
              (Sample.calm Sample.instant) 19784 (fun _ _ => eq_refl))
    as (_ & Future & Ticker & _).
  split; [exact (Future 0%nat ltac:(lia)) | exact Ticker].
Defined.

(* ================================================================= *)
(** ** More on the daily trigger *)

Module MoreDailyTrigger.
Import GoTime Calendar.

Section WithZone.
Variable local_offset : Z -> Z.

(** The instant [time.Date] is given a zero clock for is the start of a day,
    whatever the date. *)
Lemma Date_zero_clock (y m d : Z) :
  unixNano (Date y m d 0 0 0 0) mod nsPerDay = 0.
Proof.
  unfold Date. cbn [unixNano].
  match goal with
  | |- (((?days * 24 + 0) * 60 + 0) * 60 * Second + 0 * Second + 0) mod _ = 0 =>
      replace (((days * 24 + 0) * 60 + 0) * 60 * Second + 0 * Second + 0)
        with (days * nsPerDay) by (unfold nsPerDay, Second; lia)
  end.
  apply Z.mod_mul. unfold nsPerDay, Second. lia.
Qed.

(** With the three readings of the date inside the UTC day [day], the date
    handed to [time.Date] is that day's. *)
Lemma Date_of_readings (e : Env) (day : Z) :
  (forall k, (k <= 2)%nat -> utc_day (now e k) = day) ->
  Date (Year local_offset (UTC (Now e 0))) (Month local_offset (UTC (Now e 1)))
       (Day local_offset (UTC (Now e 2))) 0 0 0 0
  = mkTime (day * nsPerDay) UTCLoc.
Proof.
  intros Hday. unfold Year, Month, Day. rewrite !date_of_UTC.
  unfold Now. cbn [unixNano]. rewrite !Hday by lia.
  pose proof (civil_from_days_inv day) as H.
  destruct (civil_from_days day) as [[y m] d].
  destruct H as (Hinv & Hm & Hd). cbn [fst snd].
  unfold Date.
  replace ((m - 1) / 12) with 0 by (symmetry; apply Z.div_small; lia).
  replace ((m - 1) mod 12 + 1) with m by (rewrite Z.mod_small; lia).
  rewrite !Z.add_0_r, Hinv. f_equal. unfold nsPerDay, Second. lia.
Qed.

End WithZone.
End MoreDailyTrigger.

(** X1. Whatever the clock shows at each of its readings, the instant
    midnightTickerUpdate aims at is a midnight UTC: a whole number of days
    from the epoch. *)
Theorem nextTick_is_a_midnight (local_offset : Z -> Z) (e : Env) :
  GoTime.unixNano (nextTick local_offset e) mod GoTime.nsPerDay = 0.
Proof.
  unfold nextTick, HOUR_TO_TICK, MINUTE_TO_TICK, SECOND_TO_TICK.
  match goal with
  | |- context [GoTime.Date ?y ?m ?d 0 0 0 0] =>
      pose proof (MoreDailyTrigger.Date_zero_clock y m d) as H;
      set (tick := GoTime.Date y m d 0 0 0 0) in *
  end.
  destruct (negb (GoTime.After tick (Now e 3))); [|exact H].
  unfold GoTime.Add. cbn [GoTime.unixNano].
  rewrite DailyTrigger.INTERVAL_PERIOD_day.
  rewrite <- Z.add_mod_idemp_r, Z.mod_same, Z.add_0_r by (unfold GoTime.nsPerDay, GoTime.Second; lia).
  exact H.
Qed.

(** X2. With every reading of the clock inside one UTC day,
    midnightTickerUpdate never aims at today's midnight: the ticker it makes
    ends exactly at the next midnight UTC, and its period is positive and at
    most 24 hours. *)
Theorem midnightTickerUpdate_within_a_day (local_offset : Z -> Z) (e : Env) (day : Z) :
  (forall k, (k <= 4)%nat -> Calendar.utc_day (now e k) = day) ->
  exists t,
    midnightTickerUpdate local_offset e = Ok t
    /\ now e 4 + period t = (day + 1) * GoTime.nsPerDay
    /\ 0 < period t <= INTERVAL_PERIOD.
Proof.
  intros Hday.
  assert (Hnext : GoTime.unixNano (nextTick local_offset e)
                  = day * GoTime.nsPerDay + GoTime.nsPerDay).
  { apply DailyTrigger.nextTick_same_day. intros k Hk. apply Hday. lia. }
  pose proof (DailyTrigger.today_midnight_le (now e 4)) as H4.
  unfold DailyTrigger.today_midnight in H4. rewrite (Hday 4%nat) in H4 by lia.
  unfold midnightTickerUpdate, GoTime.Sub, NewTicker, Now. cbn [GoTime.unixNano].
  rewrite Hnext.
  destruct (day * GoTime.nsPerDay + GoTime.nsPerDay - now e 4 <=? 0) eqn:E; [lia|].
  eexists. split; [reflexivity|]. cbn [period].
  rewrite DailyTrigger.INTERVAL_PERIOD_day. lia.
Qed.

Lemma midnightTickerUpdate_within_a_day_witness :
  exists t,
    midnightTickerUpdate Sample.no_zone (Sample.calm Sample.instant) = Ok t
    /\ now (Sample.calm Sample.instant) 4 + period t = (19784 + 1) * GoTime.nsPerDay
    /\ 0 < period t <= INTERVAL_PERIOD.
Proof.
  apply (midnightTickerUpdate_within_a_day Sample.no_zone
           (Sample.calm Sample.instant) 19784).
  intros k _. reflexivity.
Defined.

(** X3. When midnight UTC passes between the readings of the date and the
    last reading of the clock (the date is read in the day [day], the
    comparison is made at or after that day's start, and the last reading is
    at or after the next midnight), midnightTickerUpdate asks for a ticker of
    non-positive period, and time.NewTicker panics. *)
Theorem midnightTickerUpdate_across_midnight (local_offset : Z -> Z) (e : Env) (day : Z) :
  (forall k, (k <= 2)%nat -> Calendar.utc_day (now e k) = day) ->
  day * GoTime.nsPerDay <= now e 3 ->
  (day + 1) * GoTime.nsPerDay <= now e 4 ->
  midnightTickerUpdate local_offset e = Panic.
Proof.
  intros Hday H3 H4.
  unfold midnightTickerUpdate, nextTick, HOUR_TO_TICK, MINUTE_TO_TICK, SECOND_TO_TICK.
  rewrite (MoreDailyTrigger.Date_of_readings local_offset e day Hday).
  unfold GoTime.After, Now. cbn [GoTime.unixNano].
  destruct (now e 3 <? day * GoTime.nsPerDay) eqn:E; [lia|].
  cbn [negb]. unfold GoTime.Sub, GoTime.Add, NewTicker. cbn [GoTime.unixNano].
  rewrite DailyTrigger.INTERVAL_PERIOD_day.
  destruct (day * GoTime.nsPerDay + GoTime.nsPerDay - now e 4 <=? 0) eqn:E'; [reflexivity|lia].
Qed.

(** The date is read one nanosecond before 2024-03-03T00:00:00Z, and the
    clock has reached that midnight at the comparison. *)
Lemma midnightTickerUpdate_across_midnight_witness :
  midnightTickerUpdate Sample.no_zone
    (mkEnv false false false false false 0 false false false false
       (fun k => if (k <=? 2)%nat then 19785 * GoTime.nsPerDay - 1
                 else 19785 * GoTime.nsPerDay))
  = Panic.
Proof.
  apply (midnightTickerUpdate_across_midnight Sample.no_zone _ 19784).
  - intros k Hk. cbn [now]. apply Nat.leb_le in Hk. rewrite Hk. reflexivity.
  - cbn. discriminate.
  - cbn. discriminate.
Defined.

(* ================================================================= *)
(** ** More on the spool *)

(** X4. When WriteToBuffer returns an error, the payload is in the buffer all
    the same, after what the buffer held: the error is that of a spill, made
    because the limit was exceeded, and no byte of the buffer is given up.
    WriteToBuffer never panics. *)
Theorem WriteToBuffer_error_keeps_payload
  (so : S3Output) (outBytes : bytes) (e : Env) (s : State) (err : error) :
  fst (WriteToBuffer so outBytes e s) = Err err ->
  buffer (snd (WriteToBuffer so outBytes e s)) = buffer s ++ outBytes
  /\ BufferChunkLimit (config so) < Z.of_nat (List.length (buffer s ++ outBytes))
  /\ spill_fails so e (set_buffer (buffer s ++ outBytes) s) = true
  /\ In err [ErrMkdirAll; ErrChdir; ErrCreate; ErrOpenFile; ErrWrite].
Proof.
  rewrite WriteToBuffer_eq.
  destruct (BufferChunkLimit (config so) <? _) eqn:E; [|discriminate].
  apply Z.ltb_lt in E. intros H.
  set (s1 := set_buffer (buffer s ++ outBytes) s) in *.
  destruct (spill_fails so e s1) eqn:F.
  - destruct (SaveToDisk_fails so e s1 F) as (err' & _ & Hb & _).
    repeat split; try assumption.
    exact (SaveToDisk_error so e s1 err H).
  - destruct (SaveToDisk_succeeds so e s1 F) as (Hr & _). congruence.
Qed.

Lemma WriteToBuffer_error_keeps_payload_witness :
  buffer (snd (WriteToBuffer (Sample.so true 10) (Sample.text "0123456789abcde")
                 (Sample.disk_full 4 Sample.instant)
                 (Sample.spooled (Sample.text "xyz") (Sample.text "a"))))
  = Sample.text "a0123456789abcde".
Proof.
  apply (WriteToBuffer_error_keeps_payload (Sample.so true 10)
           (Sample.text "0123456789abcde") (Sample.disk_full 4 Sample.instant)
           (Sample.spooled (Sample.text "xyz") (Sample.text "a")) ErrWrite).
  reflexivity.
Defined.

(** X5. After a WriteToBuffer that returns nil, the payload is either at the
    end of the buffer, the disk untouched and the buffer within the limit, or
    at the end of the spool file, behind what the file and the buffer held,
    with the buffer empty. Either way the buffer holds at most
    BufferChunkLimit bytes (none under a negative limit). *)
Theorem WriteToBuffer_ok_bounds_buffer
  (so : S3Output) (outBytes : bytes) (e : Env) (s : State) :
  fst (WriteToBuffer so outBytes e s) = Ok tt ->
  let s' := snd (WriteToBuffer so outBytes e s) in
  ((buffer s' = buffer s ++ outBytes /\ files s' = files s /\ trace s' = trace s)
   \/ (buffer s' = []
       /\ files s' (bufferFilePath so)
          = Some (spool_bytes so s ++ buffer s ++ outBytes)))
  /\ Z.of_nat (List.length (buffer s')) <= Z.max 0 (BufferChunkLimit (config so)).
Proof.
  cbv zeta. rewrite WriteToBuffer_eq.
  destruct (BufferChunkLimit (config so) <? _) eqn:E.
  - intros H. set (s1 := set_buffer (buffer s ++ outBytes) s) in *.
    destruct (spill_fails so e s1) eqn:F.
    + destruct (SaveToDisk_fails so e s1 F) as (err' & Hr & _). congruence.
    + destruct (SaveToDisk_succeeds so e s1 F) as (_ & Hb & Hf).
      rewrite Hb, Hf. split; [right; split; reflexivity|]. cbn. lia.
  - apply Z.ltb_ge in E. intros _. cbn [snd set_buffer buffer files trace].
    split; [left; repeat split|]. lia.
Qed.

Lemma WriteToBuffer_ok_bounds_buffer_witness :
  Z.of_nat (List.length (buffer (snd (WriteToBuffer (Sample.so true 10)
                                        (Sample.text "0123456789abcde")
                                        (Sample.calm Sample.instant)
                                        (Sample.spooled (Sample.text "xyz") (Sample.text "a"))))))
  <= Z.max 0 10.
Proof.
  apply (WriteToBuffer_ok_bounds_buffer (Sample.so true 10)
           (Sample.text "0123456789abcde") (Sample.calm Sample.instant)
           (Sample.spooled (Sample.text "xyz") (Sample.text "a"))).
  reflexivity.
Defined.

(** X6. SaveToDisk changes the working directory of the process: once the
    staging directory is there (it existed, or MkdirAll made it) and Chdir
    succeeds, the working directory is BufferPath, whether or not the rest of
    the spill succeeds; when the call stops before, it is as it was. *)
Theorem SaveToDisk_changes_directory (so : S3Output) (e : Env) (s : State) :
  cwd (snd (SaveToDisk so e s))
  = if (negb (dirs s (BufferPath (config so))) && mkdir_fails e) || chdir_fails e
    then cwd s
    else BufferPath (config so).
Proof.
  spill_cases so e s; reflexivity.
Qed.

(** X7. SaveToDisk never removes or shortens a file: a spool file that was
    there is there afterwards, with its bytes followed by those the call
    wrote (all of the buffer, or the head of it that a failed write left);
    every other file is as it was, and so is the bucket; and the staging
    directory, once there, stays. *)
Theorem SaveToDisk_only_appends (so : S3Output) (e : Env) (s : State) (held : bytes) :
  files s (bufferFilePath so) = Some held ->
  let s' := snd (SaveToDisk so e s) in
  (exists added,
      files s' (bufferFilePath so) = Some (held ++ added)
      /\ (added = [] \/ added = buffer s
          \/ added = firstn (short_write e) (buffer s)))
  /\ (forall p, p <> bufferFilePath so -> files s' p = files s p)
  /\ remote s' = remote s
  /\ (dirs s (BufferPath (config so)) = true -> dirs s' (BufferPath (config so)) = true).
Proof.
  intros Hheld. cbv zeta.
  destruct (SaveToDisk_frame so e s) as (Hrem & Hothers).
  split; [|split; [exact Hothers|split; [exact Hrem|]]].
  - revert Hheld. spill_cases so e s; intros Hheld; inversion Hheld; subst;
      first [ exists []; split; [now rewrite app_nil_r | auto]
            | exists (buffer s); split; [reflexivity | auto]
            | exists (firstn (short_write e) (buffer s)); split; [reflexivity | auto] ].
  - revert Hheld. spill_cases so e s; intros Hheld; congruence.
Qed.

Lemma SaveToDisk_only_appends_witness :
  exists added,
    files (snd (SaveToDisk (Sample.so true 10) (Sample.disk_full 1 Sample.instant)
                  (Sample.spooled (Sample.text "abc") (Sample.text "de"))))
      (bufferFilePath (Sample.so true 10))
    = Some (Sample.text "abc" ++ added)
    /\ (added = [] \/ added = Sample.text "de"
        \/ added = firstn 1 (Sample.text "de")).
Proof.
  apply (SaveToDisk_only_appends (Sample.so true 10) (Sample.disk_full 1 Sample.instant)
           (Sample.spooled (Sample.text "abc") (Sample.text "de")) (Sample.text "abc")).
  reflexivity.
Defined.

(** X8. A spill of an empty buffer that meets no failure writes no byte:
    the spool file holds what it held, and exists afterwards even if it did
    not before (it is then empty), as does the staging directory. So a second
    spill straight after a successful one changes nothing in the file. *)
Theorem SaveToDisk_empty_buffer (so : S3Output) (e : Env) (s : State) :
  buffer s = [] ->
  spill_fails so e s = false ->
  fst (SaveToDisk so e s) = Ok tt
  /\ files (snd (SaveToDisk so e s)) (bufferFilePath so) = Some (spool_bytes so s)
  /\ dirs (snd (SaveToDisk so e s)) (BufferPath (config so)) = true
  /\ buffer (snd (SaveToDisk so e s)) = [].
Proof.
  intros Hempty Hnone.
  destruct (SaveToDisk_succeeds so e s Hnone) as (Hr & Hb' & Hwritten).
  rewrite Hempty, app_nil_r in Hwritten.
  repeat split; try assumption.
  clear - Hnone. revert Hnone. unfold spill_fails.
  spill_cases so e s; intros; reflexivity || discriminate.
Qed.

Lemma SaveToDisk_empty_buffer_witness :
  fst (SaveToDisk (Sample.so true 10) (Sample.calm Sample.instant) Sample.fresh) = Ok tt
  /\ files (snd (SaveToDisk (Sample.so true 10) (Sample.calm Sample.instant) Sample.fresh))
       (bufferFilePath (Sample.so true 10)) = Some []
  /\ dirs (snd (SaveToDisk (Sample.so true 10) (Sample.calm Sample.instant) Sample.fresh))
       (BufferPath (config (Sample.so true 10))) = true
  /\ buffer (snd (SaveToDisk (Sample.so true 10) (Sample.calm Sample.instant) Sample.fresh)) = [].
Proof.
  apply (SaveToDisk_empty_buffer (Sample.so true 10) (Sample.calm Sample.instant)
           Sample.fresh); reflexivity.
Defined.

(* ================================================================= *)
(** ** More on Upload *)

Section MoreUpload.
Variable gzip : bytes -> bytes.
Variable local_offset : Z -> Z.

(** Having something to upload: the test at the head of [Upload] fails. *)
Lemma something_to_upload (so : S3Output) (s : State) :
  buffer s <> [] \/ files s (bufferFilePath so) <> None ->
  (Z.of_nat (List.length (buffer s)) =? 0) && not_exist s (bufferFilePath so) = false.
Proof.
  intros [H|H].
  - destruct (buffer s); [congruence | reflexivity].
  - unfold not_exist.
    destruct (files s (bufferFilePath so)); [apply andb_false_r | congruence].
Qed.

(** X9. When Upload has something to upload and a step of its spill fails,
    it returns the error of that step after logging "Cannot save to disk":
    the buffer keeps its bytes, the bucket is as it was, and nothing is read
    or sent (the log message is the only call made after those of the
    spill). *)
Theorem Upload_spill_failure (so : S3Output) (isMidnight : bool) (e : Env) (s : State) :
  buffer s <> [] \/ files s (bufferFilePath so) <> None ->
  spill_fails so e s = true ->
  let r := Upload gzip local_offset so isMidnight e s in
  (exists err, fst r = Err err /\ fst (SaveToDisk so e s) = Err err)
  /\ buffer (snd r) = buffer s
  /\ remote (snd r) = remote s
  /\ trace (snd r) = trace (snd (SaveToDisk so e s)) ++ [EvLog "Cannot save to disk"].
Proof.
  intros Hsome Hfail. cbv zeta. rewrite Upload_eq, (something_to_upload so s Hsome).
  destruct (SaveToDisk_fails so e s Hfail) as (err & Hr & Hb & _).
  destruct (SaveToDisk_frame so e s) as (Hrem & _).
  destruct (SaveToDisk so e s) as [r1 s1]. cbn [fst snd] in *. subst r1.
  cbn. repeat split; try assumption. now exists err.
Qed.

(** X10. When the spill of Upload succeeds and the spool file cannot be
    opened for reading, Upload returns the error of the open after logging
    "Cannot read from disk": by then the buffer is empty and the spool file
    holds its former bytes followed by the buffer's, and nothing is sent. *)
Theorem Upload_open_failure (so : S3Output) (isMidnight : bool) (e : Env) (s : State) :
  buffer s <> [] \/ files s (bufferFilePath so) <> None ->
  spill_fails so e s = false ->
  open_fails e = true ->
  let r := Upload gzip local_offset so isMidnight e s in
  fst r = Err ErrOpen
  /\ buffer (snd r) = []
  /\ files (snd r) (bufferFilePath so) = Some (spool_bytes so s ++ buffer s)
  /\ remote (snd r) = remote s
  /\ trace (snd r) = trace (snd (SaveToDisk so e s)) ++ [EvLog "Cannot read from disk"].
Proof.
  intros Hsome Hspill Hopen. cbv zeta.
  rewrite Upload_eq, (something_to_upload so s Hsome).
  destruct (SaveToDisk_succeeds so e s Hspill) as (Hr & Hb & Hf).
  destruct (SaveToDisk_frame so e s) as (Hrem & _).
  destruct (SaveToDisk so e s) as [r1 s1]. cbn [fst snd] in *. subst r1.
  rewrite ReadFromDisk_eq, Hf, Hopen. cbn. repeat split; assumption.
Qed.

(** X11. As the read step stands, every call of Upload ends in one of four
    ways: the "Nothing to upload." error, the error of a step of the spill,
    the error of the open, or a panic. It never returns nil; it leaves the
    bucket as it was; and it removes no file. *)
Theorem Upload_outcomes (so : S3Output) (isMidnight : bool) (e : Env) (s : State) :
  let r := Upload gzip local_offset so isMidnight e s in
  (fst r = Err ErrNothingToUpload
   \/ (exists err, fst r = Err err
                   /\ In err [ErrMkdirAll; ErrChdir; ErrCreate; ErrOpenFile; ErrWrite])
   \/ fst r = Err ErrOpen
   \/ fst r = Panic)
  /\ remote (snd r) = remote s
  /\ (forall p, files s p <> None -> files (snd r) p <> None).
Proof.
  cbv zeta. rewrite Upload_eq.
  destruct (_ && _); [cbn; auto|].
  assert (Hkeep : forall p, files s p <> None ->
                    files (snd (SaveToDisk so e s)) p <> None).
  { destruct (SaveToDisk_frame so e s) as (_ & Hothers).
    intros p Hp. destruct (String.eqb p (bufferFilePath so)) eqn:Ep.
    - apply String.eqb_eq in Ep. subst p. clear Hothers. revert Hp.
      spill_cases so e s; intros Hp; congruence.
    - apply String.eqb_neq in Ep. now rewrite (Hothers p Ep). }
  pose proof (SaveToDisk_error so e s) as Herr.
  destruct (SaveToDisk_frame so e s) as (Hrem & _).
  pose proof (ReadFromDisk_eq gzip so e (snd (SaveToDisk so e s))) as HR.
  destruct (SaveToDisk so e s) as [[[]|err|] s1]; cbn [fst snd] in *.
  - rewrite HR.
    destruct (files s1 (bufferFilePath so)); [destruct (open_fails e)|]; cbn; auto 6.
  - cbn. split; [|auto]. right. left. exists err. split; [reflexivity|].
    exact (Herr err eq_refl).
  - cbn. auto 6.
Qed.

(** X12. In the send step, a put that succeeds stores exactly one object:
    the key and content type computed from the clock and the configuration,
    with the bytes of the buffer read. When the removal that follows fails,
    Upload returns its error although the object is stored, and the spool
    file keeps its bytes (the next upload sends them again). A put that fails
    stores nothing. *)
Theorem Upload_send_stores_one_object
  (so : S3Output) (data : bytes) (isMidnight : bool) (e : Env) (s : State) :
  let r := Upload_send local_offset so (Some data) isMidnight e s in
  let object := mkObject (uploadPath local_offset so isMidnight e) data
                  (uploadContentType so) in
  (put_fails e = false -> remote (snd r) = object :: remote s)
  /\ (put_fails e = false -> remove_fails e = true ->
        fst r = Err ErrRemove /\ files (snd r) = files s)
  /\ (put_fails e = true -> remote (snd r) = remote s).
Proof.
  cbv zeta. rewrite Upload_send_eq. cbv zeta.
  destruct (put_fails e); [|destruct (files s (bufferFilePath so));
                             [destruct (remove_fails e)|]];
    repeat split; intros; try discriminate; reflexivity.
Qed.

End MoreUpload.

Lemma Upload_spill_failure_witness :
  let s := Sample.spooled (Sample.text "abc") (Sample.text "de") in
  let r := Upload (fun b => b) Sample.no_zone (Sample.so true 10) false
             (Sample.disk_full 0 Sample.instant) s in
  (exists err, fst r = Err err
               /\ fst (SaveToDisk (Sample.so true 10) (Sample.disk_full 0 Sample.instant) s)
                  = Err err)
  /\ buffer (snd r) = Sample.text "de"
  /\ remote (snd r) = []
  /\ trace (snd r)
     = trace (snd (SaveToDisk (Sample.so true 10) (Sample.disk_full 0 Sample.instant) s))
       ++ [EvLog "Cannot save to disk"].
Proof.
  apply (Upload_spill_failure (fun b => b) Sample.no_zone (Sample.so true 10) false (Sample.disk_full 0 Sample.instant)
           (Sample.spooled (Sample.text "abc") (Sample.text "de"))).
  - left. discriminate.
  - reflexivity.
Defined.

Lemma Upload_open_failure_witness :
  let s := Sample.spooled (Sample.text "abc") (Sample.text "de") in
  let e := mkEnv false false false false false 0 true false false false
             (fun _ => Sample.instant) in
  let r := Upload (fun b => b) Sample.no_zone (Sample.so true 10) false e s in
  fst r = Err ErrOpen
  /\ buffer (snd r) = []
  /\ files (snd r) (bufferFilePath (Sample.so true 10)) = Some (Sample.text "abcde")
  /\ remote (snd r) = []
  /\ trace (snd r)
     = trace (snd (SaveToDisk (Sample.so true 10) e s)) ++ [EvLog "Cannot read from disk"].
Proof.
  apply (Upload_open_failure (fun b => b) Sample.no_zone (Sample.so true 10) false
           (mkEnv false false false false false 0 true false false false
              (fun _ => Sample.instant))
           (Sample.spooled (Sample.text "abc") (Sample.text "de"))).
  - left. discriminate.
  - reflexivity.
  - reflexivity.
Defined.

Lemma Upload_send_stores_one_object_witness :
  let e := mkEnv false false false false false 0 false false false true
             (fun _ => Sample.instant) in
  let s := Sample.spooled (Sample.text "abc") [] in
  let r := Upload_send Sample.no_zone (Sample.so false 10) (Some (Sample.text "abc")) false e s in
  remote (snd r)
  = [mkObject "/app/web/2024-03-02/2024-03-02_000001" (Sample.text "abc") "text/plain"]
  /\ fst r = Err ErrRemove
  /\ files (snd r) (bufferFilePath (Sample.so false 10)) = Some (Sample.text "abc").
Proof.
  cbv zeta.
  destruct (Upload_send_stores_one_object Sample.no_zone (Sample.so false 10) (Sample.text "abc") false
              (mkEnv false false false false false 0 false false false true
                 (fun _ => Sample.instant))
              (Sample.spooled (Sample.text "abc") [])) as (Stored & Kept & _).
  destruct (Kept eq_refl eq_refl) as (E & F).
  split; [rewrite (Stored eq_refl); vm_compute; reflexivity|].
  split; [exact E|]. rewrite F. reflexivity.
Defined.

(* ================================================================= *)
(** ** More on the remote key *)

Module KeyShape.

Fixpoint last_char (s : string) : option ascii :=
  match s with
  | EmptyString => None
  | String c EmptyString => Some c
  | String _ rest => last_char rest
  end.

Definition is_digit (c : option ascii) : bool :=
  match c with
  | Some c => (48 <=? nat_of_ascii c)%nat && (nat_of_ascii c <=? 57)%nat
  | None => false
  end.

Lemma last_char_app (a b : string) :
  b <> EmptyString -> last_char (a +++ b) = last_char b.
Proof.
  intros Hb. induction a as [|c a IH]; [reflexivity|].
  cbn [String.append last_char]. rewrite IH.
  destruct (a +++ b) eqn:E; [|reflexivity].
  destruct a; cbn in E; [congruence | discriminate].
Qed.

Lemma length_app (a b : string) :
  String.length (a +++ b) = (String.length a + String.length b)%nat.
Proof. induction a as [|c a IH]; cbn; [reflexivity | now rewrite IH]. Qed.

(** A two-digit field ends in a digit. *)
Lemma appendInt_2_last (x : Z) :
  0 <= x < 100 -> is_digit (last_char (GoTime.appendInt x 2)) = true.
Proof.
  intros H.
  assert (A : Calendar.all_from 100 0
                (fun x => is_digit (last_char (GoTime.appendInt x 2))) = true)
    by (vm_compute; reflexivity).
  apply (Calendar.all_from_spec _ _ _ A). lia.
Qed.

(** The fields of the clock are within their two digits. *)
Lemma clock_fields (wall : Z) :
  let of_day := wall mod GoTime.nsPerDay in
  0 <= of_day / GoTime.Hour < 24
  /\ 0 <= (of_day mod GoTime.Hour) / (60 * GoTime.Second) < 60
  /\ 0 <= (of_day mod (60 * GoTime.Second)) / GoTime.Second < 60.
Proof.
  cbv zeta. unfold GoTime.nsPerDay, GoTime.Hour, GoTime.Second.
  Z.div_mod_to_equations. lia.
Qed.

End KeyShape.

(** X13. The extension of the key follows the content type: with
    compression on the key ends in ".gz" and the content type is
    "multipart/x-gzip"; with compression off the content type is
    "text/plain" and the key ends in the last digit of the seconds, so not in
    ".gz". *)
Theorem uploadPath_extension
  (local_offset : Z -> Z) (so : S3Output) (isMidnight : bool) (e : Env) :
  (Compression (config so) = true ->
     (exists stem, uploadPath local_offset so isMidnight e = stem +++ ".gz")
     /\ uploadContentType so = "multipart/x-gzip")
  /\ (Compression (config so) = false ->
        KeyShape.is_digit (KeyShape.last_char (uploadPath local_offset so isMidnight e)) = true
        /\ (forall stem, uploadPath local_offset so isMidnight e <> stem +++ ".gz")
        /\ uploadContentType so = "text/plain").
Proof.
  split; intros HC.
  - split; [|unfold uploadContentType; now rewrite HC].
    unfold uploadPath. rewrite HC.
    eexists. rewrite <- !append_assoc. reflexivity.
  - assert (Hlast : KeyShape.is_digit
                      (KeyShape.last_char (uploadPath local_offset so isMidnight e)) = true).
    { rewrite uploadPath_eq, HC, FormatLemmas.append_empty_r.
      unfold print_clock.
      destruct (KeyShape.clock_fields (local_wall local_offset (now e 0))) as (_ & _ & Hs).
      cbv zeta in Hs.
      set (seconds := (local_wall local_offset (now e 0) mod GoTime.nsPerDay)
                        mod (60 * GoTime.Second) / GoTime.Second) in *.
      assert (Hne : GoTime.appendInt seconds 2 <> EmptyString).
      { intros E. pose proof (FormatLemmas.appendInt_2_length seconds ltac:(lia)) as L.
        rewrite E in L. discriminate. }
      rewrite <- !append_assoc, KeyShape.last_char_app by exact Hne.
      apply KeyShape.appendInt_2_last. lia. }
    split; [exact Hlast|]. split; [|unfold uploadContentType; now rewrite HC].
    intros stem E. rewrite E, KeyShape.last_char_app in Hlast by discriminate.
    discriminate Hlast.
Qed.

Lemma uploadPath_extension_witness :
  (exists stem, uploadPath Sample.no_zone (Sample.so true 10) true (Sample.calm Sample.instant)
                = stem +++ ".gz")
  /\ forall stem, uploadPath Sample.no_zone (Sample.so false 10) true (Sample.calm Sample.instant)
                  <> stem +++ ".gz".
Proof.
  destruct (uploadPath_extension Sample.no_zone (Sample.so true 10) true
              (Sample.calm Sample.instant)) as (On & _).
  destruct (uploadPath_extension Sample.no_zone (Sample.so false 10) true
              (Sample.calm Sample.instant)) as (_ & Off).
  split; [exact (proj1 (On eq_refl)) | exact (proj1 (proj2 (Off eq_refl)))].
Defined.

(** X14. While the years of the UTC date and of the local date are within
    0..9999, the key has a fixed width after the prefix: 29 bytes (a slash, a
    date of 10, a slash, a stamp of 17), and 3 more with compression on. *)
Theorem uploadPath_length
  (local_offset : Z -> Z) (so : S3Output) (isMidnight : bool) (e : Env) :
  0 <= fst (fst (GoTime.civil_from_days
                   (Calendar.utc_day (now e 1) - (if isMidnight then 1 else 0)))) < 10000 ->
  0 <= fst (fst (GoTime.civil_from_days
                   (local_wall local_offset (now e 0) / GoTime.nsPerDay))) < 10000 ->
  String.length (uploadPath local_offset so isMidnight e)
  = (String.length (Prefix (config so)) + 29
     + (if Compression (config so) then 3 else 0))%nat.
Proof.
  intros Hutc Hlocal.
  rewrite uploadPath_eq, !KeyShape.length_app.
  rewrite (print_date_length _ Hutc), (print_date_length _ Hlocal).
  unfold print_clock. rewrite !KeyShape.length_app.
  destruct (KeyShape.clock_fields (local_wall local_offset (now e 0))) as (Hh & Hm & Hs).
  cbv zeta in Hh, Hm, Hs.
  rewrite !FormatLemmas.appendInt_2_length by lia.
  destruct (Compression (config so)); cbn [String.length]; lia.
Qed.

Lemma uploadPath_length_witness :
  String.length (uploadPath Sample.west6 (Sample.so true 10) true (Sample.calm Sample.instant))
  = (String.length (Prefix (config (Sample.so true 10))) + 29 + 3)%nat.
Proof.
  apply (uploadPath_length Sample.west6 (Sample.so true 10) true (Sample.calm Sample.instant));
    vm_compute; (split; [discriminate | reflexivity]).
Defined.

(* ================================================================= *)
(** ** More on Init *)

Module FileName.

Lemma replace_char_length (old new : ascii) (s : string) :
  String.length (replace_char old new s) = String.length s.
Proof. induction s as [|c s IH]; cbn; [reflexivity | now rewrite IH]. Qed.

Lemma replace_char_removes (old new : ascii) (s : string) :
  Ascii.eqb new old = false -> contains_char old (replace_char old new s) = false.
Proof.
  intros Hne. induction s as [|c s IH]; [reflexivity|].
  cbn. rewrite IH, orb_false_r.
  destruct (Ascii.eqb c old) eqn:E; [exact Hne | exact E].
Qed.

Lemma contains_char_app (c : ascii) (a b : string) :
  contains_char c (a +++ b) = contains_char c a || contains_char c b.
Proof. induction a as [|x a IH]; cbn; [reflexivity | now rewrite IH, orb_assoc]. Qed.

End FileName.

(** X15. Init fails, without a spool path, when the credentials are refused
    or the region is unknown, the credentials first. When it succeeds it
    keeps the configuration and names the spool file BufferPath + "/" + name,
    where the name is as long as the bucket and the prefix together and holds
    no "/" unless the bucket does: the prefix adds no directory level under
    the staging directory. *)
Theorem Init_file_name (auth_ok region_known : bool) (cfg : S3OutputConfig) :
  match Init auth_ok region_known cfg with
  | Ok so =>
      auth_ok = true /\ region_known = true
      /\ config so = cfg
      /\ exists name,
           bufferFilePath so = BufferPath cfg +++ "/" +++ name
           /\ String.length name
              = (String.length (Bucket cfg) + String.length (Prefix cfg))%nat
           /\ (contains_char "/" (Bucket cfg) = false -> contains_char "/" name = false)
  | Err err =>
      (auth_ok = false /\ err = ErrAuth)
      \/ (auth_ok = true /\ region_known = false /\ err = ErrRegionNotFound)
  | Panic => False
  end.
Proof.
  destruct (Init auth_ok region_known cfg) as [so|err|] eqn:E.
  - destruct (SpoolPath.Init_bufferFilePath _ _ _ _ E) as (Hc & Hp).
    unfold Init in E. destruct auth_ok, region_known; try discriminate E.
    repeat split; try assumption.
    exists (Bucket cfg +++ replace_char "/" "_" (Prefix cfg)).
    split; [exact Hp|]. split.
    + now rewrite KeyShape.length_app, FileName.replace_char_length.
    + intros Hb. rewrite FileName.contains_char_app, Hb.
      now rewrite FileName.replace_char_removes.
  - unfold Init in E. destruct auth_ok, region_known; cbn in E;
      inversion E; subst; auto.
  - unfold Init in E. destruct auth_ok, region_known; discriminate E.
Qed.

(* ================================================================= *)
(** ** Run: the event loop *)

Module EventLoop.

(** What [or.Encode(pack)] gives: an error, nil bytes with no error, or the
    bytes to write. *)
Inductive Encoded :=
| EncodeError (msg : string)
| EncodeNil
| EncodeBytes (outBytes : bytes).

(** What the [select] of the loop receives, one at a time, each with the
    environment of the calls its handling makes: a pack from [inChan] (a pack
    is named by a number), the closing of [inChan], a tick of the runner's
    ticker, a tick of the midnight ticker (with the clock that
    [midnightTickerUpdate] reads, then the environment of the upload). *)
Inductive Received :=
| RecvPack (pack : nat) (encoded : Encoded) (e : Env)
| RecvClosed
| RecvTick (e : Env)
| RecvMidnight (clock : Env) (e : Env).

(** The variables of [Run] and what it has told the runner. *)
Record Loop := mkLoop {
  world : State;                     (* with the buffer of Run *)
  midnightTicker : option Ticker;    (* None until the first one is made *)
  recycled : list nat;               (* the packs given back by pack.Recycle(), latest last *)
  errors : list string               (* the messages of or.LogError, latest last *)
}.

(** How a round of the loop ends: the loop goes on, the loop is left
    ([ok] is false), or a panic unwinds [Run]. *)
Inductive Control := Continue | Exit | Crash.

Definition set_world (s : State) (l : Loop) : Loop :=
  mkLoop s (midnightTicker l) (recycled l) (errors l).

Definition log_message (msg : string) (l : Loop) : Loop :=
  set_world (emit (EvLog msg) (world l)) l.

Definition log_error (msg : string) (l : Loop) : Loop :=
  mkLoop (world l) (midnightTicker l) (recycled l) (errors l ++ [msg]).

Definition recycle (pack : nat) (l : Loop) : Loop :=
  mkLoop (world l) (midnightTicker l) (recycled l ++ [pack]) (errors l).

Definition set_ticker (t : Ticker) (l : Loop) : Loop :=
  mkLoop (world l) (Some t) (recycled l) (errors l).

Section WithLibraries.
Variable gzip : bytes -> bytes.
Variable local_offset : Z -> Z.
(** [err.Error()], as "%s" prints it. *)
Variable describe : error -> string.

(** The case of a pack received from [inChan]. *)
Definition on_pack (so : S3Output) (pack : nat) (encoded : Encoded) (e : Env) (l : Loop)
  : Control * Loop :=
  match encoded with
  | EncodeError msg =>
      let l := log_error ("Error encoding message: " +++ msg) l in
      (Continue, log_message ("Warning, unable to write to buffer: " +++ msg) l)
  | EncodeNil => (Continue, recycle pack l)
  | EncodeBytes outBytes =>
      match WriteToBuffer so outBytes e (world l) with
      | (Ok _, s) => (Continue, recycle pack (set_world s l))
      | (Err err, s) =>
          (Continue,
           log_message ("Warning, unable to write to buffer: " +++ describe err)
             (set_world s l))
      | (Panic, s) => (Crash, set_world s l)
      end
  end.

(** The upload of the two ticker cases, after its first log message. *)
Definition on_upload (so : S3Output) (isMidnight : bool) (e : Env) (l : Loop)
  : Control * Loop :=
  match Upload gzip local_offset so isMidnight e (world l) with
  | (Ok _, s) =>
      (Continue,
       set_world (set_buffer [] (emit (EvLog "Payload uploaded successfully.") s)) l)
  | (Err err, s) =>
      (Continue,
       log_message ("Warning, unable to upload payload: " +++ describe err)
         (set_world s l))
  | (Panic, s) => (Crash, set_world s l)
  end.

(** One round of the loop, for what the [select] received. *)
Definition round (so : S3Output) (r : Received) (l : Loop) : Control * Loop :=
  match r with
  | RecvPack pack encoded e => on_pack so pack encoded e l
  | RecvClosed => (Exit, l)
  | RecvTick e =>
      on_upload so false e (log_message "Ticker fired, uploading payload." l)
  | RecvMidnight clock e =>
      match midnightTickerUpdate local_offset clock with
      | Ok t =>
          on_upload so true e
            (log_message "Midnight ticker fired, uploading payload." (set_ticker t l))
      | Err _ | Panic => (Crash, l)
      end
  end.

(** The loop over what is received. When nothing more is received the
    [select] blocks: the loop is still going on. *)
Fixpoint loop (so : S3Output) (received : list Received) (l : Loop) : Control * Loop :=
  match received with
  | [] => (Continue, l)
  | r :: rest =>
      match round so r l with
      | (Continue, l') => loop so rest l'
      | stopped => stopped
      end
  end.

(** [Run]: a fresh buffer, the first midnight ticker, the loop, and the last
    message when the loop is left; [Exit] is the return of a nil error. *)
Definition Run (so : S3Output) (clock : Env) (received : list Received) (s : State)
  : Control * Loop :=
  let l := mkLoop (set_buffer [] s) None [] [] in
  match midnightTickerUpdate local_offset clock with
  | Ok t =>
      match loop so received (set_ticker t l) with
      | (Exit, l') => (Exit, log_message "Shutting down S3 output runner." l')
      | other => other
      end
  | Err _ | Panic => (Crash, l)
  end.

End WithLibraries.
End EventLoop.

(** *** What the rounds have in common *)

Module LoopLemmas.
Import EventLoop.

(** Nothing stored, nothing removed: the bucket is as it was and the files
    that were there are there. *)
Definition keeps (s s' : State) : Prop :=
  remote s' = remote s /\ forall p, files s p <> None -> files s' p <> None.

Lemma keeps_refl (s : State) : keeps s s.
Proof. split; auto. Qed.

(** For states that differ in the buffer or the trace only. *)
Ltac keeps_same := split; [reflexivity | intros p Hp; exact Hp].

Lemma keeps_trans (s1 s2 s3 : State) : keeps s1 s2 -> keeps s2 s3 -> keeps s1 s3.
Proof. intros [R1 F1] [R2 F2]. split; [congruence | auto]. Qed.

Lemma SaveToDisk_keeps (so : S3Output) (e : Env) (s : State) :
  keeps s (snd (SaveToDisk so e s)).
Proof.
  destruct (SaveToDisk_frame so e s) as (Hrem & Hothers).
  split; [exact Hrem|]. intros p Hp.
  destruct (String.eqb p (bufferFilePath so)) eqn:Ep.
  - apply String.eqb_eq in Ep. subst p. revert Hp.
    spill_cases so e s; intros Hp; congruence.
  - apply String.eqb_neq in Ep. now rewrite (Hothers p Ep).
Qed.

Lemma WriteToBuffer_keeps (so : S3Output) (outBytes : bytes) (e : Env) (s : State) :
  keeps s (snd (WriteToBuffer so outBytes e s)).
Proof.
  rewrite WriteToBuffer_eq. destruct (BufferChunkLimit (config so) <? _).
  - exact (SaveToDisk_keeps so e (set_buffer (buffer s ++ outBytes) s)).
  - keeps_same.
Qed.

Lemma WriteToBuffer_no_panic (so : S3Output) (outBytes : bytes) (e : Env) (s : State) :
  fst (WriteToBuffer so outBytes e s) <> Panic.
Proof.
  rewrite WriteToBuffer_eq. destruct (BufferChunkLimit (config so) <? _).
  - apply SaveToDisk_no_panic.
  - discriminate.
Qed.

Lemma WriteToBuffer_error_buffer (so : S3Output) (outBytes : bytes) (e : Env) (s : State) :
  forall err, fst (WriteToBuffer so outBytes e s) = Err err ->
              buffer (snd (WriteToBuffer so outBytes e s)) = buffer s ++ outBytes.
Proof.
  intros err. rewrite WriteToBuffer_eq.
  destruct (BufferChunkLimit (config so) <? _); [|discriminate].
  intros H. set (s1 := set_buffer (buffer s ++ outBytes) s) in *.
  destruct (spill_fails so e s1) eqn:F.
  - destruct (SaveToDisk_fails so e s1 F) as (_ & _ & Hb & _). exact Hb.
  - destruct (SaveToDisk_succeeds so e s1 F) as (Hr & _). congruence.
Qed.

Section WithLibraries.
Variable gzip : bytes -> bytes.
Variable local_offset : Z -> Z.
Variable describe : error -> string.

Lemma Upload_keeps (so : S3Output) (isMidnight : bool) (e : Env) (s : State) :
  keeps s (snd (Upload gzip local_offset so isMidnight e s)).
Proof.
  rewrite Upload_eq. destruct (_ && _); [apply keeps_refl|].
  pose proof (SaveToDisk_keeps so e s) as HS.
  pose proof (ReadFromDisk_eq gzip so e (snd (SaveToDisk so e s))) as HR.
  destruct (SaveToDisk so e s) as [[[]|err|] s1]; cbn [fst snd] in *.
  - rewrite HR.
    destruct (files s1 (bufferFilePath so)); [destruct (open_fails e)|];
      (eapply keeps_trans; [exact HS | keeps_same]).
  - eapply keeps_trans; [exact HS | keeps_same].
  - exact HS.
Qed.

(** The loop over two stretches of what is received: the second is handled
    from where the first left the loop going. *)
Lemma loop_app (so : S3Output) (first second : list Received) (l : Loop) :
  loop gzip local_offset describe so (first ++ second) l
  = match loop gzip local_offset describe so first l with
    | (Continue, l') => loop gzip local_offset describe so second l'
    | stopped => stopped
    end.
Proof.
  revert l. induction first as [|r first IH]; intros l; [reflexivity|].
  cbn [app loop].
  destruct (round gzip local_offset describe so r l) as [[| |] l']; auto.
Qed.

Lemma on_upload_keeps (so : S3Output) (isMidnight : bool) (e : Env) (l : Loop) :
  keeps (world l) (world (snd (on_upload gzip local_offset describe so isMidnight e l)))
  /\ recycled (snd (on_upload gzip local_offset describe so isMidnight e l)) = recycled l.
Proof.
  unfold on_upload.
  pose proof (Upload_keeps so isMidnight e (world l)) as HU.
  pose proof (Upload_never_Ok gzip local_offset so isMidnight e (world l)) as HN.
  destruct (Upload gzip local_offset so isMidnight e (world l)) as [[[]|err|] s'];
    cbn [fst snd] in *; [now contradiction HN | |]; (split; [|reflexivity]).
  - eapply keeps_trans; [exact HU | keeps_same].
  - exact HU.
Qed.

Lemma round_keeps (so : S3Output) (r : Received) (l : Loop) :
  keeps (world l) (world (snd (round gzip local_offset describe so r l))).
Proof.
  destruct r as [pack encoded e| |e|clock e]; cbn [round].
  - unfold on_pack. destruct encoded as [msg| |outBytes]; try keeps_same.
    pose proof (WriteToBuffer_keeps so outBytes e (world l)) as HW.
    destruct (WriteToBuffer so outBytes e (world l)) as [[[]|err|] s'];
      cbn [snd world recycle set_world log_message] in *;
      try exact HW; (eapply keeps_trans; [exact HW | keeps_same]).
  - keeps_same.
  - eapply keeps_trans;
      [|exact (proj1 (on_upload_keeps so false e
                        (log_message "Ticker fired, uploading payload." l)))].
    keeps_same.
  - destruct (midnightTickerUpdate local_offset clock) as [t|err|]; try keeps_same.
    eapply keeps_trans;
      [|exact (proj1 (on_upload_keeps so true e
                        (log_message "Midnight ticker fired, uploading payload."
                           (set_ticker t l))))].
    keeps_same.
Qed.

Lemma loop_keeps (so : S3Output) (received : list Received) (l : Loop) :
  keeps (world l) (world (snd (loop gzip local_offset describe so received l))).
Proof.
  revert l. induction received as [|r rest IH]; intros l; [apply keeps_refl|].
  cbn [loop]. pose proof (round_keeps so r l) as HR.
  destruct (round gzip local_offset describe so r l) as [[| |] l']; cbn [snd] in *;
    try exact HR.
  exact (keeps_trans _ _ _ HR (IH l')).
Qed.

End WithLibraries.
End LoopLemmas.

(** *** Properties of Run *)

Section RunProperties.
Import EventLoop LoopLemmas.
Variable gzip : bytes -> bytes.
Variable local_offset : Z -> Z.
Variable describe : error -> string.

(** X16. A pack never stops the loop, and it is given back with
    pack.Recycle() exactly when its encoding gave no error and, if there were
    bytes to write, WriteToBuffer returned nil. A pack whose encoding failed
    is logged as an error and not recycled, with the buffer and the files
    untouched; a pack whose spill failed is not recycled although its bytes
    are in the buffer. *)
Theorem on_pack_recycles
  (so : S3Output) (pack : nat) (encoded : Encoded) (e : Env) (l : Loop) :
  let l' := snd (on_pack describe so pack encoded e l) in
  fst (on_pack describe so pack encoded e l) = Continue
  /\ (recycled l' = recycled l ++ [pack] \/ recycled l' = recycled l)
  /\ (recycled l' = recycled l ++ [pack]
      <-> encoded = EncodeNil
          \/ exists outBytes,
               encoded = EncodeBytes outBytes
               /\ fst (WriteToBuffer so outBytes e (world l)) = Ok tt)
  /\ (forall msg,
        encoded = EncodeError msg ->
        errors l' = errors l ++ ["Error encoding message: " +++ msg]
        /\ buffer (world l') = buffer (world l)
        /\ files (world l') = files (world l))
  /\ (forall outBytes err,
        encoded = EncodeBytes outBytes ->
        fst (WriteToBuffer so outBytes e (world l)) = Err err ->
        buffer (world l') = buffer (world l) ++ outBytes).
Proof.
  cbv zeta.
  assert (Hgrow : forall (a : list nat) (x : nat), a ++ [x] <> a).
  { intros a x H. apply (f_equal (@List.length nat)) in H.
    rewrite length_app in H. cbn in H. lia. }
  destruct encoded as [msg| |outBytes]; cbn [on_pack].
  - cbn. split; [reflexivity|]. split; [now right|]. split; [|split].
    + split; [intros H; symmetry in H; now apply Hgrow in H|].
      intros [H|(b & H & _)]; discriminate H.
    + intros m H. inversion H; subst. auto.
    + intros b err H. discriminate H.
  - cbn. split; [reflexivity|]. split; [now left|]. split; [|split].
    + split; auto.
    + intros m H. discriminate H.
    + intros b err H. discriminate H.
  - pose proof (WriteToBuffer_no_panic so outBytes e (world l)) as HP.
    pose proof (WriteToBuffer_error_buffer so outBytes e (world l)) as HE.
    destruct (WriteToBuffer so outBytes e (world l)) as [[[]|err|] s'] eqn:EW;
      cbn [fst snd] in *; [| |now contradiction HP];
      cbn [fst snd recycled recycle world set_world log_message].
    + split; [reflexivity|]. split; [now left|]. split; [|split].
      * split; [|intros _; reflexivity].
        intros _. right. exists outBytes. rewrite EW. split; reflexivity.
      * intros m H. discriminate H.
      * intros b err Hb H. inversion Hb; subst b. rewrite EW in H. discriminate H.
    + split; [reflexivity|]. split; [now right|]. split; [|split].
      * split; [intros H; symmetry in H; now apply Hgrow in H|].
        intros [H|(b & Hb & H)]; [discriminate H|].
        inversion Hb; subst b. rewrite EW in H. discriminate H.
      * intros m H. discriminate H.
      * intros b err' Hb _. inversion Hb; subst b. exact (HE err eq_refl).
Qed.

(** Packs that encode to bytes, as they are received. *)
Definition packs (ps : list (nat * bytes * Env)) : list Received :=
  map (fun p => RecvPack (fst (fst p)) (EncodeBytes (snd (fst p))) (snd p)) ps.

Definition payloads (ps : list (nat * bytes * Env)) : bytes :=
  List.concat (map (fun p => snd (fst p)) ps).

(** X17. Packs whose bytes, added to those in the buffer, stay within
    BufferChunkLimit are all appended to the buffer in the order received and
    all recycled, and the loop goes on without a single call to the disk or
    the bucket: nothing but the buffer changes. *)
Theorem loop_packs_within_limit
  (so : S3Output) (ps : list (nat * bytes * Env)) (l : Loop) :
  Z.of_nat (List.length (buffer (world l) ++ payloads ps)) <= BufferChunkLimit (config so) ->
  loop gzip local_offset describe so (packs ps) l
  = (Continue,
     mkLoop (set_buffer (buffer (world l) ++ payloads ps) (world l))
            (midnightTicker l)
            (recycled l ++ map (fun p => fst (fst p)) ps)
            (errors l)).
Proof.
  revert l. induction ps as [|[[pack outBytes] e] ps IH]; intros l Hlen.
  - cbn. unfold payloads. cbn. rewrite !app_nil_r.
    destruct l as [[b d f o c r t] mt rc er]; reflexivity.
  - unfold payloads in *. cbn [map List.concat fst snd] in *.
    cbn [packs map loop round on_pack fst snd].
    rewrite WriteToBuffer_eq.
    assert (Hstep : (BufferChunkLimit (config so)
                     <? Z.of_nat (List.length (buffer (world l) ++ outBytes))) = false).
    { apply Z.ltb_ge. rewrite app_assoc, length_app in Hlen. lia. }
    rewrite Hstep.
    fold (packs ps). rewrite IH.
    + cbn. rewrite <- !app_assoc. reflexivity.
    + cbn. now rewrite <- app_assoc.
Qed.

(** X18. While the buffer is empty and os.Stat reports that nothing exists
    at the spool path (no spool file, no directory under that name, nothing
    else found or refused there), ticks of the runner's ticker do nothing but
    log: each adds its two messages (the tick, and the warning with the
    "Nothing to upload." error), the loop goes on, and the buffer, the disk,
    the bucket and the recycled packs are as they were. *)
Theorem loop_idle_ticks (so : S3Output) (es : list Env) (l : Loop) :
  buffer (world l) = [] ->
  not_exist (world l) (bufferFilePath so) = true ->
  let r := loop gzip local_offset describe so (map RecvTick es) l in
  fst r = Continue
  /\ buffer (world (snd r)) = []
  /\ files (world (snd r)) = files (world l)
  /\ dirs (world (snd r)) = dirs (world l)
  /\ others (world (snd r)) = others (world l)
  /\ remote (world (snd r)) = remote (world l)
  /\ recycled (snd r) = recycled l
  /\ trace (world (snd r))
     = trace (world l)
       ++ List.concat
            (map (fun _ =>
                    [EvLog "Ticker fired, uploading payload.";
                     EvLog ("Warning, unable to upload payload: "
                            +++ describe ErrNothingToUpload)]) es).
Proof.
  revert l. induction es as [|e es IH]; intros l Hb Hf; cbv zeta.
  - cbn. rewrite app_nil_r. repeat split. exact Hb.
  - cbn [map loop round].
    assert (Hup : on_upload gzip local_offset describe so false e
                    (log_message "Ticker fired, uploading payload." l)
                  = (Continue,
                     log_message ("Warning, unable to upload payload: "
                                  +++ describe ErrNothingToUpload)
                       (log_message "Ticker fired, uploading payload." l))).
    { unfold on_upload. rewrite Upload_eq.
      set (l1 := log_message "Ticker fired, uploading payload." l).
      assert (Hb1 : buffer (world l1) = []) by exact Hb.
      assert (Hf1 : not_exist (world l1) (bufferFilePath so) = true) by exact Hf.
      rewrite Hb1, Hf1. reflexivity. }
    rewrite Hup.
    specialize (IH (log_message ("Warning, unable to upload payload: "
                                 +++ describe ErrNothingToUpload)
                      (log_message "Ticker fired, uploading payload." l)) Hb Hf).
    cbv zeta in IH. destruct IH as (H1 & H2 & H3 & H4 & H5 & H6 & H7 & H8).
    repeat split; try assumption.
    rewrite H8. cbn. rewrite <- !app_assoc. reflexivity.
Qed.

(** X19. What is received after the closing of the input channel is never
    handled, and Run returns on the closing without a last spill or upload:
    it ends as it would have stood after what came before the closing, with
    the message of the shutdown logged; whatever the buffer holds then is
    left in it. *)
Theorem Run_stops_at_close
  (so : S3Output) (clock : Env) (before after : list Received) (s : State) :
  Run gzip local_offset describe so clock (before ++ RecvClosed :: after) s
  = match Run gzip local_offset describe so clock before s with
    | (Continue, l) => (Exit, log_message "Shutting down S3 output runner." l)
    | stopped => stopped
    end.
Proof.
  unfold Run.
  destruct (midnightTickerUpdate local_offset clock) as [t|err|]; try reflexivity.
  rewrite loop_app.
  destruct (loop gzip local_offset describe so before _) as [[| |] l']; reflexivity.
Qed.

(** X20. A tick of the runner's ticker that finds something to upload, a
    disk that takes the spill and a spool file that opens, ends Run in a
    panic (that of the read step), whatever would be received next. By then
    the buffer has been spilled: the spool file holds its former bytes
    followed by the buffer's, nothing is in the bucket that was not, and no
    pack has been recycled by the round. *)
Theorem loop_tick_panics
  (so : S3Output) (e : Env) (rest : list Received) (l : Loop) :
  buffer (world l) <> [] \/ files (world l) (bufferFilePath so) <> None ->
  spill_fails so e (world l) = false ->
  open_fails e = false ->
  let r := loop gzip local_offset describe so (RecvTick e :: rest) l in
  fst r = Crash
  /\ files (world (snd r)) (bufferFilePath so)
     = Some (spool_bytes so (world l) ++ buffer (world l))
  /\ buffer (world (snd r)) = []
  /\ remote (world (snd r)) = remote (world l)
  /\ recycled (snd r) = recycled l.
Proof.
  intros Hsome Hspill Hopen. cbv zeta. cbn [loop round].
  unfold on_upload. rewrite Upload_eq.
  set (l1 := log_message "Ticker fired, uploading payload." l).
  assert (Hsome1 : buffer (world l1) <> [] \/ files (world l1) (bufferFilePath so) <> None)
    by exact Hsome.
  assert (Hspill1 : spill_fails so e (world l1) = false)
    by (unfold l1; cbn [world log_message set_world]; now rewrite spill_fails_emit).
  rewrite (something_to_upload so (world l1) Hsome1).
  destruct (SaveToDisk_succeeds so e (world l1) Hspill1) as (Hr & Hb & Hf).
  destruct (SaveToDisk_frame so e (world l1)) as (Hrem & _).
  destruct (SaveToDisk so e (world l1)) as [r1 s1]. cbn [fst snd] in *. subst r1.
  rewrite ReadFromDisk_eq, Hf, Hopen.
  cbn. repeat split; assumption.
Qed.

(** X21. As the read step stands, Run delivers nothing and deletes nothing:
    whatever is received, in whatever environment, the bucket at the end (or
    at the panic) is as it was at the start, and every file that was on the
    disk is still there. *)
Theorem Run_never_delivers
  (so : S3Output) (clock : Env) (received : list Received) (s : State) :
  let r := Run gzip local_offset describe so clock received s in
  remote (world (snd r)) = remote s
  /\ forall p, files s p <> None -> files (world (snd r)) p <> None.
Proof.
  cbv zeta. unfold Run.
  destruct (midnightTickerUpdate local_offset clock) as [t|err|];
    try (split; [reflexivity | auto]).
  pose proof (loop_keeps gzip local_offset describe so received
                (set_ticker t (mkLoop (set_buffer [] s) None [] []))) as HK.
  destruct (loop gzip local_offset describe so received _) as [[| |] l'];
    cbn [snd world log_message set_world emit remote files] in *; exact HK.
Qed.

(** No failed write of the round leaves a part of its data in the file. *)
Definition whole_writes (r : Received) : Prop :=
  match r with
  | RecvPack _ _ e | RecvTick e | RecvMidnight _ e => short_write e = 0%nat
  | RecvClosed => True
  end.

(** The bytes of the packs handled: those received before the closing that
    encode to bytes, in order. *)
Fixpoint encoded_bytes (received : list Received) : bytes :=
  match received with
  | [] => []
  | RecvPack _ (EncodeBytes outBytes) _ :: rest => outBytes ++ encoded_bytes rest
  | RecvClosed :: _ => []
  | _ :: rest => encoded_bytes rest
  end.

Lemma on_upload_pending (so : S3Output) (isMidnight : bool) (e : Env) (l : Loop) :
  short_write e = 0%nat ->
  pending so (world (snd (on_upload gzip local_offset describe so isMidnight e l)))
  = pending so (world l)
  /\ fst (on_upload gzip local_offset describe so isMidnight e l) <> Exit.
Proof.
  intros Hw. unfold on_upload.
  pose proof (Upload_pending gzip local_offset so isMidnight e (world l) Hw
                (Upload_never_Ok gzip local_offset so isMidnight e (world l))) as (HP & _).
  pose proof (Upload_never_Ok gzip local_offset so isMidnight e (world l)) as HN.
  destruct (Upload gzip local_offset so isMidnight e (world l)) as [[[]|err|] s'];
    cbn [fst snd] in *; [now contradiction HN | |];
    (split; [exact HP | discriminate]).
Qed.

(** X22. With an absolute staging path and an absolute spool path, while
    Run goes on (no panic), and no failed write leaves a part of its data
    behind, no byte is lost or moved out of order: the spool file followed by
    the buffer holds what they held before, followed by the bytes of every
    pack handled since, in the order received, whether or not the packs were
    recycled and whatever ticks came in between. *)
Theorem loop_keeps_every_byte (so : S3Output) (received : list Received) (l : Loop) :
  absolute_paths so = true ->
  Forall whole_writes received ->
  fst (loop gzip local_offset describe so received l) <> Crash ->
  pending so (world (snd (loop gzip local_offset describe so received l)))
  = pending so (world l) ++ encoded_bytes received.
Proof.
  intros _ Hall. revert l.
  induction Hall as [|r rest Hr _ IH]; intros l Hgo.
  - cbn. now rewrite app_nil_r.
  - cbn [loop] in *.
    destruct r as [pack encoded e| |e|clock e]; cbn [round whole_writes] in *.
    + pose proof (fun b => WriteToBuffer_no_panic so b e (world l)) as HP.
      destruct encoded as [msg| |outBytes]; cbn [on_pack encoded_bytes] in *.
      * rewrite (IH _ Hgo). reflexivity.
      * rewrite (IH _ Hgo). reflexivity.
      * pose proof (WriteToBuffer_pending so outBytes e (world l) Hr) as (HW & _).
        specialize (HP outBytes).
        destruct (WriteToBuffer so outBytes e (world l)) as [[[]|err|] s'];
          cbn [fst snd] in *; [| |now contradiction HP].
        -- rewrite (IH _ Hgo). cbn [world recycle set_world].
           now rewrite HW, <- app_assoc.
        -- rewrite (IH _ Hgo). cbn [world log_message set_world].
           change (pending so (emit _ s')) with (pending so s').
           now rewrite HW, <- app_assoc.
    + cbn. now rewrite app_nil_r.
    + pose proof (on_upload_pending so false e
                    (log_message "Ticker fired, uploading payload." l) Hr) as (HU & HX).
      destruct (on_upload gzip local_offset describe so false e _) as [[| |] l'];
        cbn [fst snd encoded_bytes] in *;
        [|now contradiction HX|now contradiction Hgo].
      rewrite (IH _ Hgo), HU. reflexivity.
    + destruct (midnightTickerUpdate local_offset clock) as [t|err|];
        [|now contradiction Hgo|now contradiction Hgo].
      pose proof (on_upload_pending so true e
                    (log_message "Midnight ticker fired, uploading payload."
                       (set_ticker t l)) Hr) as (HU & HX).
      destruct (on_upload gzip local_offset describe so true e _) as [[| |] l'];
        cbn [fst snd encoded_bytes] in *;
        [|now contradiction HX|now contradiction Hgo].
      rewrite (IH _ Hgo), HU. reflexivity.
Qed.

End RunProperties.

Lemma loop_packs_within_limit_witness :
  let l := EventLoop.mkLoop (Sample.spooled [] (Sample.text "ab")) None [] [] in
  EventLoop.loop (fun b => b) Sample.no_zone (fun _ => "error") (Sample.so true 10)
    (packs [(1%nat, Sample.text "cde", Sample.calm Sample.instant);
            (2%nat, Sample.text "fghij", Sample.disk_full 0 Sample.instant)]) l
  = (EventLoop.Continue,
     EventLoop.mkLoop (set_buffer (Sample.text "ab" ++ Sample.text "cdefghij")
                         (Sample.spooled [] (Sample.text "ab")))
                      None [1%nat; 2%nat] []).
Proof.
  apply (loop_packs_within_limit (fun b => b) Sample.no_zone (fun _ => "error")
           (Sample.so true 10)
           [(1%nat, Sample.text "cde", Sample.calm Sample.instant);
            (2%nat, Sample.text "fghij", Sample.disk_full 0 Sample.instant)]
           (EventLoop.mkLoop (Sample.spooled [] (Sample.text "ab")) None [] [])).
  vm_compute. discriminate.
Defined.

Lemma loop_idle_ticks_witness :
  let l := EventLoop.mkLoop Sample.fresh None [] [] in
  let r := EventLoop.loop (fun b => b) Sample.no_zone (fun _ => "Nothing to upload.")
             (Sample.so true 10)
             (map EventLoop.RecvTick [Sample.calm Sample.instant; Sample.put_down Sample.instant])
             l in
  fst r = EventLoop.Continue
  /\ buffer (EventLoop.world (snd r)) = []
  /\ List.length (trace (EventLoop.world (snd r))) = 4%nat.
Proof.
  cbv zeta.
  destruct (loop_idle_ticks (fun b => b) Sample.no_zone (fun _ => "Nothing to upload.")
              (Sample.so true 10)
              [Sample.calm Sample.instant; Sample.put_down Sample.instant]
              (EventLoop.mkLoop Sample.fresh None [] []) eq_refl eq_refl)
    as (C & B & _ & _ & _ & _ & _ & T).
  split; [exact C|]. split; [exact B|]. rewrite T. reflexivity.
Defined.

Lemma loop_tick_panics_witness :
  let l := EventLoop.mkLoop (Sample.spooled (Sample.text "abc") (Sample.text "de"))
             None [] [] in
  let r := EventLoop.loop (fun b => b) Sample.no_zone (fun _ => "error") (Sample.so true 10)
             [EventLoop.RecvTick (Sample.calm Sample.instant); EventLoop.RecvClosed] l in
  fst r = EventLoop.Crash
  /\ files (EventLoop.world (snd r)) (bufferFilePath (Sample.so true 10))
     = Some (Sample.text "abcde")
  /\ buffer (EventLoop.world (snd r)) = [].
Proof.
  cbv zeta.
  pose (l := EventLoop.mkLoop (Sample.spooled (Sample.text "abc") (Sample.text "de"))
               None [] []).
  assert (Some_bytes : buffer (EventLoop.world l) <> []
                       \/ files (EventLoop.world l) (bufferFilePath (Sample.so true 10)) <> None)
    by (left; discriminate).
  assert (Spill : spill_fails (Sample.so true 10) (Sample.calm Sample.instant)
                    (EventLoop.world l) = false) by (vm_compute; reflexivity).
  assert (Opens : open_fails (Sample.calm Sample.instant) = false) by reflexivity.
  destruct (loop_tick_panics (fun b => b) Sample.no_zone (fun _ => "error")
              (Sample.so true 10) (Sample.calm Sample.instant) [EventLoop.RecvClosed]
              l Some_bytes Spill Opens)
    as (C & F & B & _).
  split; [exact C|]. split; [exact F | exact B].
Defined.

Lemma loop_keeps_every_byte_witness :
  let l := EventLoop.mkLoop (Sample.spooled (Sample.text "abc") []) None [] [] in
  let received :=
    [EventLoop.RecvPack 1 (EventLoop.EncodeBytes (Sample.text "de")) (Sample.calm Sample.instant);
     EventLoop.RecvPack 2 (EventLoop.EncodeError "bad") (Sample.calm Sample.instant);
     EventLoop.RecvPack 3 (EventLoop.EncodeBytes (Sample.text "0123456789"))
       (Sample.disk_full 0 Sample.instant);
     EventLoop.RecvTick (Sample.disk_full 0 Sample.instant);
     EventLoop.RecvPack 4 (EventLoop.EncodeBytes (Sample.text "f")) (Sample.calm Sample.instant)] in
  pending (Sample.so true 10)
    (EventLoop.world (snd (EventLoop.loop (fun b => b) Sample.no_zone (fun _ => "error")
                             (Sample.so true 10) received l)))
  = Sample.text "abc" ++ Sample.text "de0123456789f".
Proof.
  cbv zeta.
  apply (loop_keeps_every_byte (fun b => b) Sample.no_zone (fun _ => "error")
           (Sample.so true 10)
           [EventLoop.RecvPack 1 (EventLoop.EncodeBytes (Sample.text "de"))
              (Sample.calm Sample.instant);
            EventLoop.RecvPack 2 (EventLoop.EncodeError "bad") (Sample.calm Sample.instant);
            EventLoop.RecvPack 3 (EventLoop.EncodeBytes (Sample.text "0123456789"))
              (Sample.disk_full 0 Sample.instant);
            EventLoop.RecvTick (Sample.disk_full 0 Sample.instant);
            EventLoop.RecvPack 4 (EventLoop.EncodeBytes (Sample.text "f"))
              (Sample.calm Sample.instant)]
           (EventLoop.mkLoop (Sample.spooled (Sample.text "abc") []) None [] [])).
  - reflexivity.
  - repeat constructor.
  - vm_compute. discriminate.
Defined.
